(** * Poltergeist MCP server: the tool handlers of [main.py]

    A shallow embedding of the nine tool operations of [src/main.py] and of
    the fragment of Python they are written in: JSON-like values, the
    builtins the handlers call, exceptions with [try]/[except], and the
    calls to the three outside services (search provider, commerce GraphQL
    endpoint, datastore), which are recorded in a trace. *)

From Stdlib Require Import ZArith Floats String List Bool Lia.
Import ListNotations.
Local Open Scope string_scope.
Local Open Scope Z_scope.

Set Implicit Arguments.
Local Set Warnings "-register-all,-inexact-float".

(** ** Python values *)

(** The values the handlers see: what [json] decoding produces, plus the
    [fastmcp.Image] objects built by [fetch_amazon_product_details].
    A [dict] is an association list: Python dicts keep insertion order,
    keys are strings, and the first binding of a key is the one looked up. *)
Inductive value : Type :=
| VNone
| VBool (b : bool)
| VInt (n : Z)
| VFloat (f : float)
| VStr (s : string)
| VList (l : list value)
| VDict (d : list (string * value))
| VImage (path : value).

(** The exceptions that can reach a handler: those of the builtins used in
    the source, the two [httpx] classes the source names, and any other
    [Exception] a library raises. *)
Inductive exc : Type :=
| AttributeError
| TypeError
| ValueError
| KeyError
| IndexError
| OverflowError
| HTTPStatusError (status_code : Z) (text : string)
| RequestError (msg : string)
| OtherError (msg : string).

(** Outcome of an expression: a value, or a raised exception. *)
Inductive Res (A : Type) : Type :=
| Ok (a : A)
| Raise (e : exc).
Arguments Ok {A} a.
Arguments Raise {A} e.

(** Interpreter services the source relies on and does not define:
    [str()] and f-string formatting of a value, [str(e)] of an exception,
    [float()] on a string ([None] is [ValueError]), and the constructor of
    [fastmcp.Image] ([Some e]: it raises [e]). *)
Class Runtime : Type := {
  py_str : value -> string;
  exc_str : exc -> string;
  float_of_str : string -> option float;
  image_init : value -> option exc
}.

(** *** Dictionaries *)

Fixpoint assoc (k : string) (d : list (string * value)) : option value :=
  match d with
  | [] => None
  | (k', v) :: d' => if String.eqb k k' then Some v else assoc k d'
  end.

(** [d[k] = v] on a dict: replace in place, or append a new key. *)
Fixpoint dict_set (k : string) (v : value) (d : list (string * value))
  : list (string * value) :=
  match d with
  | [] => [(k, v)]
  | (k', v') :: d' =>
      if String.eqb k k' then (k', v) :: d' else (k', v') :: dict_set k v d'
  end.

(** *** Truthiness, [isinstance], [len], iteration *)

Definition truthy (v : value) : bool :=
  match v with
  | VNone => false
  | VBool b => b
  | VInt n => negb (n =? 0)
  | VFloat f => negb (PrimFloat.eqb f 0%float)
  | VStr s => negb (String.eqb s "")
  | VList l => match l with [] => false | _ => true end
  | VDict d => match d with [] => false | _ => true end
  | VImage _ => true
  end.

(** [a or b] when [b] cannot raise. *)
Definition py_or (a b : value) : value := if truthy a then a else b.

Definition is_list (v : value) : bool :=
  match v with VList _ => true | _ => false end.

Definition is_dict (v : value) : bool :=
  match v with VDict _ => true | _ => false end.

Fixpoint chars (s : string) : list value :=
  match s with
  | EmptyString => []
  | String c s' => VStr (String c EmptyString) :: chars s'
  end.

Definition py_len (v : value) : Res Z :=
  match v with
  | VStr s => Ok (Z.of_nat (String.length s))
  | VList l => Ok (Z.of_nat (List.length l))
  | VDict d => Ok (Z.of_nat (List.length d))
  | _ => Raise TypeError
  end.

(** The items a [for] loop visits: list elements, dict keys, characters
    (strings are byte strings here, which is exact for ASCII text). *)
Definition py_iter (v : value) : Res (list value) :=
  match v with
  | VList l => Ok l
  | VDict d => Ok (map (fun kv => VStr (fst kv)) d)
  | VStr s => Ok (chars s)
  | _ => Raise TypeError
  end.

(** *** Attribute [get] and subscripts *)

(** [o.get(k, default)]: only dicts have a [get] method. *)
Definition py_get (o : value) (k : string) (default : value) : Res value :=
  match o with
  | VDict d => Ok (match assoc k d with Some v => v | None => default end)
  | _ => Raise AttributeError
  end.

(** [o[k]] with a string key. *)
Definition py_item (o : value) (k : string) : Res value :=
  match o with
  | VDict d => match assoc k d with Some v => Ok v | None => Raise KeyError end
  | _ => Raise TypeError
  end.

(** [o[0]]. Dict keys are strings, so [0] is never a key. *)
Definition py_first (o : value) : Res value :=
  match o with
  | VList l => match l with v :: _ => Ok v | [] => Raise IndexError end
  | VStr s => match chars s with v :: _ => Ok v | [] => Raise IndexError end
  | VDict _ => Raise KeyError
  | _ => Raise TypeError
  end.

(** [o[k] = v]. *)
Definition py_setitem (o : value) (k : string) (v : value) : Res value :=
  match o with
  | VDict d => Ok (VDict (dict_set k v d))
  | _ => Raise TypeError
  end.

(** *** Numbers *)

(** Nearest binary64 to an integer (ties to even); infinite on overflow. *)
Definition Z2float (n : Z) : float :=
  SF2Prim (binary_normalize prec emax n 0 false).

(** [float(n)] on an [int]: [OverflowError] when out of range. *)
Definition int_to_float (n : Z) : Res float :=
  let f := Z2float n in
  if PrimFloat.is_infinity f then Raise OverflowError else Ok f.

Section WithRuntime.
Context {rt : Runtime}.

(** The builtin [float(v)]. *)
Definition py_float (v : value) : Res float :=
  match v with
  | VInt n => int_to_float n
  | VFloat f => Ok f
  | VBool b => Ok (if b then 1%float else 0%float)
  | VStr s => match float_of_str s with Some f => Ok f | None => Raise ValueError end
  | _ => Raise TypeError
  end.

End WithRuntime.

(** [n >= f] for an [int] and a [float]: Python compares the exact values. *)
Definition Z_ge_float (n : Z) (f : float) : bool :=
  match Prim2SF f with
  | S754_zero _ => 0 <=? n
  | S754_infinity neg => neg
  | S754_nan => false
  | S754_finite neg m e =>
      let v := if neg then Z.neg m else Z.pos m in
      if 0 <=? e then v * 2 ^ e <=? n else v <=? n * 2 ^ (- e)
  end.

(** [a >= f] where [f] is a float. *)
Definition py_ge (a : value) (f : float) : Res bool :=
  match a with
  | VInt n => Ok (Z_ge_float n f)
  | VFloat x => Ok (PrimFloat.leb f x)
  | VBool b => Ok (Z_ge_float (if b then 1 else 0) f)
  | _ => Raise TypeError
  end.

(** [f - a] where [f] is a float. *)
Definition py_rsub (f : float) (a : value) : Res float :=
  match a with
  | VInt n => match int_to_float n with Ok x => Ok (f - x)%float | Raise e => Raise e end
  | VFloat x => Ok (f - x)%float
  | VBool b => Ok (f - (if b then 1 else 0))%float
  | _ => Raise TypeError
  end.

(** [sum(fs)] of a list of floats, left to right from the [int] start
    value [0], as the language reference defines it: the empty sum is the
    [int] 0, and [0 + f] converts [0] to [0.0]. *)
Definition py_sum (fs : list float) : value :=
  match fs with
  | [] => VInt 0
  | _ => VFloat (fold_left PrimFloat.add fs 0%float)
  end.

(** ** The outside world *)

(** What [FirecrawlApp.search] hands back: an object with a [data]
    attribute, or anything else (for which [hasattr(_, "data")] is false). *)
Inductive search_response : Type :=
| WithData (data : value)
| Plain (v : value).

(** The [error] attribute of a datastore response. [err_message = None]:
    the object has no [message] attribute. *)
Record db_error : Type := {
  err_message : option value;
  err_text : string
}.

(** A datastore response. [resp_error = None] when
    [hasattr(resp, "error") and resp.error] is false. *)
Record db_response : Type := {
  resp_error : option db_error;
  resp_data : value
}.

Inductive db_filter : Type :=
| Eq (column : string) (v : value)
| Gte (column : string) (v : value).

(** The query built by the [supabase] client before [execute()]. *)
Inductive db_query : Type :=
| Insert (table : string) (row : value)
| Upsert (table : string) (row : value) (on_conflict : string)
| Select (table columns : string) (filters : list db_filter)
         (order_desc : option (string * bool)) (limit : option Z).

(** An [httpx] POST: URL, JSON body and headers. *)
Record http_request : Type := {
  req_url : string;
  req_json : value;
  req_headers : value
}.

(** Observable effects of a handler, in the order they happen. *)
Inductive event : Type :=
| Printed (line : string)
| SearchCall (api_key : value) (query : string) (limit : Z)
| HttpPost (r : http_request)
| DbExecute (url key : value) (q : db_query).

Definition is_network_call (ev : event) : bool :=
  match ev with
  | Printed _ => false
  | _ => true
  end.

Definition network_calls (t : list event) : list event :=
  filter is_network_call t.

(** The collaborators of the handlers. [http_post] stands for the three
    consecutive steps [client.post(..)], [raise_for_status()] and [json()]:
    it yields the decoded body, or the exception one of them raised.
    Constructors ([FirecrawlApp], [create_client]) issue no request and may
    raise ([Some e]). [utc_day_start] is the ISO form of today's UTC
    midnight, read from the clock. *)
Record World : Type := {
  firecrawl_app : value -> option exc;
  firecrawl_search : value -> string -> Z -> Res search_response;
  http_post : http_request -> Res value;
  supabase_client : value -> value -> option exc;
  db_execute : value -> value -> db_query -> Res db_response;
  utc_day_start : string
}.

(** [os.environ.get]. *)
Definition Env : Type := string -> option string.

(** ** Sequencing *)

(** *** Pure code that may raise *)

Definition rbind {A B} (r : Res A) (k : A -> Res B) : Res B :=
  match r with
  | Ok a => k a
  | Raise e => Raise e
  end.

Declare Scope res_scope.
Delimit Scope res_scope with res.
Notation "x <- r ;; k" := (rbind r (fun x => k))
  (at level 100, r at next level, right associativity) : res_scope.

(** Short-circuit [a or b] on conditions that may raise. *)
Definition orelse (a b : Res bool) : Res bool :=
  (x <- a ;; if x then Ok true else b)%res.
Notation "a ||| b" := (orelse a b) (at level 50, left associativity) : res_scope.

(** A [for] loop threading an accumulator. *)
Fixpoint for_loop {S} (l : list value) (acc : S) (body : S -> value -> Res S)
  : Res S :=
  match l with
  | [] => Ok acc
  | x :: l' => (acc' <- body acc x ;; for_loop l' acc' body)%res
  end.

(** A [for] loop whose body may [return]: the first returned value. *)
Fixpoint for_return (l : list value) (body : value -> Res (option value))
  : Res (option value) :=
  match l with
  | [] => Ok None
  | x :: l' =>
      (r <- body x ;;
       match r with
       | Some v => Ok (Some v)
       | None => for_return l' body
       end)%res
  end.

(** *** Handlers: exceptions over a trace of effects *)

Definition M (A : Type) : Type := list event -> Res A * list event.

Definition ret {A} (a : A) : M A := fun t => (Ok a, t).

Definition bind {A B} (m : M A) (k : A -> M B) : M B :=
  fun t =>
    match m t with
    | (Ok a, t') => k a t'
    | (Raise e, t') => (Raise e, t')
    end.

Definition lift {A} (r : Res A) : M A := fun t => (r, t).

Definition emit (ev : event) : M unit := fun t => (Ok tt, (t ++ [ev])%list).

(** [try: m  except Exception as e: h e]. *)
Definition try_except {A} (m : M A) (h : exc -> M A) : M A :=
  fun t =>
    match m t with
    | (Ok a, t') => (Ok a, t')
    | (Raise e, t') => h e t'
    end.

(** Run a handler from the empty trace. *)
Definition run {A} (m : M A) : Res A * list event := m [].

Declare Scope py_scope.
Delimit Scope py_scope with py.
Notation "x <- m ;; k" := (bind m (fun x => k))
  (at level 100, m at next level, right associativity) : py_scope.
Notation "m ;;; k" := (bind m (fun _ => k))
  (at level 100, right associativity) : py_scope.
Local Open Scope py_scope.

Definition get (o : value) (k : string) (default : value) : M value :=
  lift (py_get o k default).
Definition item (o : value) (k : string) : M value := lift (py_item o k).

(** [resp.error.message]. *)
Definition error_message (e : db_error) : M value :=
  match err_message e with
  | Some m => ret m
  | None => lift (Raise AttributeError)
  end.

Definition rye_graphql_endpoint : string :=
  "https://staging.graphql.api.rye.com/v1/query".

(** The GraphQL document sent by [request_amazon_product_tracking]. *)
Definition request_tracking_query : string :=
"
    mutation RequestAmazonProductByURL($input: RequestAmazonProductByURLInput!) {
        requestAmazonProductByURL(input: $input) {
            productId
        }
    }
    ".

(** The GraphQL document sent by [fetch_amazon_product_details]. *)
Definition product_details_query : string :=
"
    query ProductDetails($input: ProductByIDInput!) {
        product: productByID(input: $input) {
            title
            url
            isAvailable
            price { displayValue value currency }
            images { url }
            ... on AmazonProduct {
                ASIN
            }
        }
    }
    ".

(** The GraphQL document sent by [create_amazon_cart]. *)
Definition create_cart_mutation : string :=
"
    mutation CreateCart($input: CartCreateInput!) {
        createCart(input: $input) {
            cart {
                id
                cost {
                    total { value displayValue currency }
                    subtotal { value displayValue currency }
                    shipping { value displayValue currency }
                    isEstimated
                }
                stores {
                    ... on AmazonStore {
                        cartLines {
                            quantity
                            product {
                                id
                                title
                            }
                        }
                        errors { # Errors specific to this store
                            code
                            message
                        }
                    }
                    # Could add ShopifyStore or other types if needed
                }
            }
            errors { # Top-level errors for the createCart mutation
                code
                message
            }
        }
    }
    ".

(** The GraphQL document sent by [get_rye_cart_details]. *)
Definition get_cart_query : string :=
"
    query GetCart($id: ID!) {
      getCart(id: $id) {
        cart {
          id
          cost {
            total { value currency }
            subtotal { value currency }
            shipping { value currency }
            tax { value currency }
          }
          stores {
            ... on AmazonStore {
              cartLines {
                quantity
                product {
                  id
                  title
                  price { value currency }
                }
              }
            }
          }
        }
        errors { code message }
      }
    }
    ".

(** ** The tool handlers *)

Section Tools.
Context {rt : Runtime} (env : Env) (w : World).

Definition environ_get (name : string) : value :=
  match env name with
  | Some s => VStr s
  | None => VNone
  end.

Definition of_ctor (r : option exc) : M unit :=
  match r with
  | Some e => lift (Raise e)
  | None => ret tt
  end.

Definition FirecrawlApp (api_key : value) : M unit :=
  of_ctor (firecrawl_app w api_key).

Definition search (api_key : value) (query : string) (limit : Z)
  : M search_response :=
  emit (SearchCall api_key query limit) ;;;
  lift (firecrawl_search w api_key query limit).

(** [client.post(url, json=.., headers=..)], [raise_for_status()], [json()]. *)
Definition post (url : string) (json headers : value) : M value :=
  let r := {| req_url := url; req_json := json; req_headers := headers |} in
  emit (HttpPost r) ;;; lift (http_post w r).

Definition create_client (url key : value) : M unit :=
  of_ctor (supabase_client w url key).

Definition execute (url key : value) (q : db_query) : M db_response :=
  emit (DbExecute url key q) ;;; lift (db_execute w url key q).

Definition print (line : string) : M unit := emit (Printed line).

Definition Image (path : value) : Res value :=
  match image_init path with
  | Some e => Raise e
  | None => Ok (VImage path)
  end.

Definition rye_headers (rye_auth_header rye_shopper_ip : value) : value :=
  VDict [("Authorization", rye_auth_header);
         ("Rye-Shopper-IP", rye_shopper_ip);
         ("Content-Type", VStr "application/json")].

Definition get_server_status : value :=
  VStr "Poltergeist MCP Server is running and ready to haunt... I mean, help!".

Definition research_products (query : string) : M value :=
  let api_key := environ_get "FIRECRAWL_API_KEY" in
  if negb (truthy api_key) then
    ret (VDict [("error", VStr "FIRECRAWL_API_KEY not set.")])
  else
    try_except
      (FirecrawlApp api_key ;;;
       search_resp <- search api_key query 10 ;;
       let search_results :=
         match search_resp with
         | WithData data => data
         | Plain v => v
         end in
       if truthy search_results then
         processed_results <-
           lift (results <- py_iter search_results ;;
                 for_loop results [] (fun acc result =>
                   title <- py_get result "title" (VStr "N/A") ;;
                   url <- py_get result "url" (VStr "N/A") ;;
                   snippet <- py_get result "description" (VStr "") ;;
                   Ok (acc ++ [VDict [("title", title); ("url", url);
                                      ("snippet", snippet)]])%list))%res ;;
         ret (VDict [("results", VList processed_results)])
       else
         ret (VDict [("error", VStr "Unexpected format from Firecrawl search.");
                     ("details", VStr (py_str search_results))]))
      (fun e =>
         ret (VDict [("error",
                      VStr ("An error occurred during Firecrawl search: "
                            ++ exc_str e))])).

Definition request_amazon_product_tracking (product_url : string) : M value :=
  let rye_auth_header := environ_get "RYE_AUTH_HEADER" in
  let rye_shopper_ip := environ_get "RYE_SHOPPER_IP" in
  if negb (forallb truthy [rye_auth_header; rye_shopper_ip]) then
    ret (VDict [("error",
                 VStr "RYE_AUTH_HEADER or RYE_SHOPPER_IP not set in environment variables.")])
  else
    let headers := rye_headers rye_auth_header rye_shopper_ip in
    let variables := VDict [("input", VDict [("url", VStr product_url)])] in
    try_except
      (response_data <-
         post rye_graphql_endpoint
              (VDict [("query", VStr request_tracking_query);
                      ("variables", variables)]) headers ;;
       errors <- get response_data "errors" VNone ;;
       if truthy errors then
         details <- item response_data "errors" ;;
         ret (VDict [("error", VStr "GraphQL error from Rye");
                     ("details", details)])
       else
         data <- get response_data "data" (VDict []) ;;
         payload <- get data "requestAmazonProductByURL" (VDict []) ;;
         product_id <- get payload "productId" VNone ;;
         if negb (truthy product_id) then
           ret (VDict [("error", VStr "productId not found in Rye response");
                       ("details", response_data)])
         else
           ret (VDict [("productId", product_id)]))
      (fun e =>
         match e with
         | HTTPStatusError status_code text =>
             ret (VDict [("error",
                          VStr ("HTTP error occurred while contacting Rye: "
                                ++ py_str (VInt status_code)));
                         ("details", VStr text)])
         | RequestError _ =>
             ret (VDict [("error",
                          VStr ("Request error occurred while contacting Rye: "
                                ++ exc_str e))])
         | _ =>
             ret (VDict [("error",
                          VStr ("An unexpected error occurred: " ++ exc_str e))])
         end).

Definition fetch_amazon_product_details (product_id : string) : M value :=
  let rye_auth_header := environ_get "RYE_AUTH_HEADER" in
  let rye_shopper_ip := environ_get "RYE_SHOPPER_IP" in
  if negb (forallb truthy [rye_auth_header; rye_shopper_ip]) then
    ret (VDict [("error",
                 VStr "RYE_AUTH_HEADER or RYE_SHOPPER_IP not set in environment variables.")])
  else
    let headers := rye_headers rye_auth_header rye_shopper_ip in
    let variables :=
      VDict [("input", VDict [("id", VStr product_id);
                              ("marketplace", VStr "AMAZON")])] in
    try_except
      (data <-
         post rye_graphql_endpoint
              (VDict [("query", VStr product_details_query);
                      ("variables", variables)]) headers ;;
       errors <- get data "errors" VNone ;;
       if truthy errors then
         details <- item data "errors" ;;
         ret (VDict [("error", VStr "GraphQL error"); ("details", details)])
       else
         d <- get data "data" (VDict []) ;;
         product <- get d "product" VNone ;;
         if negb (truthy product) then
           ret (VDict [("error", VStr "Product not found"); ("details", data)])
         else
           images <- get product "images" (VList []) ;;
           img_objs <-
             lift (imgs <- py_iter images ;;
                   for_loop imgs [] (fun acc img =>
                     has_url <-
                       (if is_dict img then
                          u <- py_get img "url" VNone ;; Ok (truthy u)
                        else Ok false) ;;
                     if has_url then
                       u <- py_item img "url" ;;
                       im <- Image u ;;
                       Ok (acc ++ [im])%list
                     else Ok acc))%res ;;
           lift (py_setitem product "image_previews" (VList img_objs)))
      (fun e =>
         match e with
         | HTTPStatusError status_code text =>
             ret (VDict [("error",
                          VStr ("HTTP error " ++ py_str (VInt status_code)));
                         ("details", VStr text)])
         | _ => ret (VDict [("error", VStr (exc_str e))])
         end).

(** The structural guard of [create_amazon_cart] (lines 320-327): true when
    the cart has no stores or its first store has no cart lines. *)
Definition cart_looks_empty (cart_object : value) : Res bool :=
  ((s <- py_get cart_object "stores" VNone ;; Ok (negb (truthy s)))
   ||| (s <- py_item cart_object "stores" ;; Ok (negb (is_list s)))
   ||| (s <- py_item cart_object "stores" ;; n <- py_len s ;; Ok (n =? 0))
   ||| (s <- py_item cart_object "stores" ;; s0 <- py_first s ;;
        l <- py_get s0 "cartLines" VNone ;; Ok (negb (truthy l)))
   ||| (s <- py_item cart_object "stores" ;; s0 <- py_first s ;;
        l <- py_item s0 "cartLines" ;; Ok (negb (is_list l)))
   ||| (s <- py_item cart_object "stores" ;; s0 <- py_first s ;;
        l <- py_item s0 "cartLines" ;; n <- py_len l ;; Ok (n =? 0)))%res.

(** The loop over the stores of [create_amazon_cart] (lines 335-341): the
    failure it returns at the first store that reports errors, if any. *)
Definition store_level_error (cart_object : value) : Res (option value) :=
  (stores_field <- py_get cart_object "stores" (VList []) ;;
   stores <- py_iter stores_field ;;
   for_return stores (fun store =>
     e <- py_get store "errors" VNone ;;
     has_errors <-
       (if truthy e then
          es <- py_item store "errors" ;;
          n <- py_len es ;; Ok (0 <? n)
        else Ok false) ;;
     if has_errors then
       details <- py_item store "errors" ;;
       Ok (Some
         (VDict [("error",
                  VStr "Store-level error reported during cart creation.");
                 ("details", details);
                 ("cart_details_received", cart_object)]))
     else Ok None))%res.

Definition create_amazon_cart (product_id : string) (quantity : Z) : M value :=
  let rye_auth_header := environ_get "RYE_AUTH_HEADER" in
  let rye_shopper_ip := environ_get "RYE_SHOPPER_IP" in
  if negb (forallb truthy [rye_auth_header; rye_shopper_ip]) then
    ret (VDict [("error", VStr "RYE_AUTH_HEADER or RYE_SHOPPER_IP not set")])
  else
    let headers := rye_headers rye_auth_header rye_shopper_ip in
    let input_obj :=
      VDict [("items",
              VDict [("amazonCartItemsInput",
                      VList [VDict [("quantity", VInt quantity);
                                    ("productId", VStr product_id)]])])] in
    let variables := VDict [("input", input_obj)] in
    try_except
      (response_data <-
         post rye_graphql_endpoint
              (VDict [("query", VStr create_cart_mutation);
                      ("variables", variables)]) headers ;;
       errors <- get response_data "errors" VNone ;;
       if truthy errors then
         details <- item response_data "errors" ;;
         ret (VDict [("error", VStr "GraphQL top-level error during cart creation");
                     ("details", details)])
       else
         data <- get response_data "data" (VDict []) ;;
         create_cart_payload <- get data "createCart" VNone ;;
         if negb (truthy create_cart_payload) then
           ret (VDict [("error",
                        VStr "Cart creation failed, 'createCart' payload missing");
                       ("details", response_data)])
         else
           payload_errors <- get create_cart_payload "errors" VNone ;;
           if truthy payload_errors then
             details <- item create_cart_payload "errors" ;;
             ret (VDict [("error",
                          VStr "GraphQL error within createCart mutation result");
                         ("details", details)])
           else
             cart_object <- get create_cart_payload "cart" VNone ;;
             no_id <-
               (if negb (truthy cart_object) then ret true
                else i <- get cart_object "id" VNone ;; ret (negb (truthy i))) ;;
             if no_id then
               ret (VDict [("error",
                            VStr "Cart ID not found in successful cart creation");
                           ("details", create_cart_payload)])
             else
               empty <- lift (cart_looks_empty cart_object) ;;
               if empty then
                 ret (VDict [("error",
                              VStr "Cart created but appears empty or item not added successfully.");
                             ("details",
                              VStr "No stores or cartLines found in the response, or they are empty.");
                             ("cart_details_received", cart_object)])
               else
                 returned <- lift (store_level_error cart_object) ;;
                 match returned with
                 | Some result => ret result
                 | None => ret create_cart_payload
                 end)
      (fun e =>
         match e with
         | HTTPStatusError status_code text =>
             ret (VDict [("error",
                          VStr ("HTTP error during cart creation: "
                                ++ py_str (VInt status_code)));
                         ("details", VStr text)])
         | _ =>
             ret (VDict [("error",
                          VStr ("An unexpected error occurred during cart creation: "
                                ++ exc_str e))])
         end).

Definition get_rye_cart_details (cart_id : string) : M value :=
  let rye_auth_header := environ_get "RYE_AUTH_HEADER" in
  let rye_shopper_ip := environ_get "RYE_SHOPPER_IP" in
  if negb (forallb truthy [rye_auth_header; rye_shopper_ip]) then
    ret (VDict [("error", VStr "RYE_AUTH_HEADER or RYE_SHOPPER_IP not set")])
  else
    let headers := rye_headers rye_auth_header rye_shopper_ip in
    let variables := VDict [("id", VStr cart_id)] in
    try_except
      (response_data <-
         post rye_graphql_endpoint
              (VDict [("query", VStr get_cart_query);
                      ("variables", variables)]) headers ;;
       errors <- get response_data "errors" VNone ;;
       if truthy errors then
         details <- item response_data "errors" ;;
         ret (VDict [("error",
                      VStr "GraphQL top-level execution error fetching cart details");
                     ("details", details)])
       else
         data <- get response_data "data" (VDict []) ;;
         get_cart_response_payload <- get data "getCart" VNone ;;
         if negb (truthy get_cart_response_payload) then
           ret (VDict [("error", VStr "No 'getCart' payload in response data");
                       ("details", response_data)])
         else
           payload_errors <- get get_cart_response_payload "errors" VNone ;;
           if truthy payload_errors then
             details <- item get_cart_response_payload "errors" ;;
             ret (VDict [("error",
                          VStr "GraphQL error reported by getCart operation");
                         ("details", details)])
           else
             cart_details <- get get_cart_response_payload "cart" VNone ;;
             if negb (truthy cart_details) then
               ret (VDict [("error",
                            VStr "Could not retrieve nested 'cart' details or cart not found");
                           ("details", get_cart_response_payload)])
             else ret cart_details)
      (fun e =>
         match e with
         | HTTPStatusError status_code text =>
             ret (VDict [("error",
                          VStr ("HTTP error fetching cart: "
                                ++ py_str (VInt status_code)));
                         ("details", VStr text)])
         | _ =>
             ret (VDict [("error",
                          VStr ("Unexpected error fetching cart: " ++ exc_str e))])
         end).

(** Lines 473-485 of [checkout_amazon_cart]: the total in major units and
    its currency, from the [cost] object of the fetched cart. *)
Definition checkout_total (cart_details : value) : Res (float * value) :=
  (c <- py_get cart_details "cost" VNone ;;
   let cost_info := py_or c (VDict []) in
   subtotal_raw <-
     (s <- py_get cost_info "subtotal" VNone ;;
      v <- py_get (py_or s (VDict [])) "value" VNone ;;
      py_float (py_or v (VInt 0))) ;;
   shipping_raw <-
     (s <- py_get cost_info "shipping" VNone ;;
      v <- py_get (py_or s (VDict [])) "value" VNone ;;
      py_float (py_or v (VInt 0))) ;;
   tax_raw <-
     (s <- py_get cost_info "tax" VNone ;;
      v <- py_get (py_or s (VDict [])) "value" VNone ;;
      py_float (py_or v (VInt 0))) ;;
   let total_value := ((subtotal_raw + shipping_raw + tax_raw) / 100)%float in
   total_currency <-
     (s <- py_get cost_info "subtotal" VNone ;;
      c1 <- py_get (py_or s (VDict [])) "currency" VNone ;;
      if truthy c1 then Ok c1
      else
        s <- py_get cost_info "shipping" VNone ;;
        c2 <- py_get (py_or s (VDict [])) "currency" VNone ;;
        if truthy c2 then Ok c2
        else
          s <- py_get cost_info "tax" VNone ;;
          py_get (py_or s (VDict [])) "currency" VNone) ;;
   Ok (total_value, total_currency))%res.

(** Lines 487-500 of [checkout_amazon_cart]: one snapshot entry per cart
    line of every store, in order. *)
Definition checkout_items (cart_details : value) : Res (list value) :=
  (st <- py_get cart_details "stores" VNone ;;
   stores <- py_iter (py_or st (VList [])) ;;
   for_loop stores [] (fun acc store =>
     cl <- py_get store "cartLines" VNone ;;
     lines <- py_iter (py_or cl (VList [])) ;;
     for_loop lines acc (fun acc line =>
       p <- py_get line "product" VNone ;;
       let prod := py_or p (VDict []) in
       pr <- py_get prod "price" VNone ;;
       let price := py_or pr (VDict []) in
       product_id <- py_get prod "id" VNone ;;
       title <- py_get prod "title" VNone ;;
       quantity <- py_get line "quantity" VNone ;;
       price_value <- py_get price "value" VNone ;;
       price_currency <- py_get price "currency" VNone ;;
       Ok (acc ++ [VDict [("productId", product_id);
                          ("title", title);
                          ("quantity", quantity);
                          ("price_value", price_value);
                          ("price_currency", price_currency)]])%list)))%res.

(** The row [checkout_amazon_cart] inserts into [orders]. *)
Definition order_record (cart_id : string) (user_identifier : value)
    (total_value : float) (total_currency : value) (items_snapshot : list value)
  : value :=
  VDict [("rye_order_id", VNone);
         ("rye_cart_id", VStr cart_id);
         ("user_identifier", user_identifier);
         ("status", VStr "CREATED");
         ("total_amount_value", VFloat total_value);
         ("total_amount_currency", total_currency);
         ("items_snapshot", VList items_snapshot)].

Definition checkout_amazon_cart (cart_id : string) (buyer_info : value) : M value :=
  let supabase_url := environ_get "SUPABASE_URL" in
  let supabase_key := environ_get "SUPABASE_SERVICE_ROLE_KEY" in
  if negb (truthy supabase_url) || negb (truthy supabase_key) then
    ret (VDict [("error", VStr "Supabase URL or service role key not configured.")])
  else
    cart_details <- get_rye_cart_details cart_id ;;
    print ("checkout_amazon_cart: cart_details = " ++ py_str cart_details) ;;;
    if negb (is_dict cart_details) then
      ret (VDict [("error", VStr "Invalid cart details received");
                  ("details", VStr (py_str cart_details))])
    else
      err <- get cart_details "error" VNone ;;
      if truthy err then
        ret (VDict [("error", VStr "Failed to fetch cart details before checkout");
                    ("details", cart_details)])
      else
        total <- lift (checkout_total cart_details) ;;
        items_snapshot <- lift (checkout_items cart_details) ;;
        try_except
          (create_client supabase_url supabase_key ;;;
           email <- get buyer_info "email" VNone ;;
           let order_data :=
             order_record cart_id email (fst total) (snd total) items_snapshot in
           print ("checkout_amazon_cart: inserting order_data = "
                  ++ py_str order_data) ;;;
           resp <- execute supabase_url supabase_key (Insert "orders" order_data) ;;
           match resp_error resp with
           | Some error =>
               message <- error_message error ;;
               ret (VDict [("error", VStr "Supabase insert failed");
                           ("details", py_or message (VStr (err_text error)));
                           ("order_data", order_data)])
           | None =>
               ret (VDict [("status", VStr "success");
                           ("order_data", order_data);
                           ("supabase_insert", resp_data resp)])
           end)
          (fun e => ret (VDict [("error", VStr ("Checkout failed: " ++ exc_str e))])).

Definition list_my_purchases (limit : Z) : M value :=
  let supabase_url := environ_get "SUPABASE_URL" in
  let supabase_key := environ_get "SUPABASE_SERVICE_ROLE_KEY" in
  if negb (truthy supabase_url) || negb (truthy supabase_key) then
    ret (VDict [("error", VStr "Supabase URL or key not set in environment.")])
  else
    try_except
      (create_client supabase_url supabase_key ;;;
       response <-
         execute supabase_url supabase_key
                 (Select "orders" "*" [] (Some ("ordered_at", true)) (Some limit)) ;;
       match resp_error response with
       | Some error =>
           message <- error_message error ;;
           ret (VDict [("error", VStr "Supabase query failed");
                       ("details",
                        if truthy message then message else VStr (err_text error))])
       | None =>
           ret (VDict [("status", VStr "success");
                       ("orders", py_or (resp_data response) (VList []))])
       end)
      (fun e =>
         ret (VDict [("error",
                      VStr ("Unexpected error fetching purchases: " ++ exc_str e))])).

Definition set_spending_limit (user_identifier : string) (limit_value : float)
  : M value :=
  let supabase_url := environ_get "SUPABASE_URL" in
  let supabase_key := environ_get "SUPABASE_SERVICE_ROLE_KEY" in
  if negb (truthy supabase_url) || negb (truthy supabase_key) then
    ret (VDict [("error", VStr "Supabase URL or service role key not configured.")])
  else
    try_except
      (create_client supabase_url supabase_key ;;;
       resp <-
         execute supabase_url supabase_key
                 (Upsert "spending_limits"
                         (VDict [("user_identifier", VStr user_identifier);
                                 ("limit_value", VFloat limit_value)])
                         "user_identifier") ;;
       match resp_error resp with
       | Some error =>
           message <- error_message error ;;
           ret (VDict [("error", VStr "Failed to set spending limit");
                       ("details", message)])
       | None =>
           ret (VDict [("status", VStr "success");
                       ("message",
                        VStr ("Spending limit set to " ++ py_str (VFloat limit_value)
                              ++ " for " ++ user_identifier ++ "."));
                       ("data", resp_data resp)])
       end)
      (fun e =>
         ret (VDict [("error", VStr ("An unexpected error occurred: " ++ exc_str e))])).

Definition advice_limit_reached : string :=
  "Whoa, you've hit or exceeded your daily spending limit! Time for some anti-retail therapy 🍵.".

Definition advice_approaching : string :=
  "You're getting close to your daily limit—maybe take a breath before splurging more.".

Definition advice_clear : string :=
  "All clear! You have room to spend today.".

(** The limit used when the user has no [spending_limits] row. *)
Definition default_limit : float := 1e30%float.

(** Lines 614-617 of [get_spending_status]: the configured limit of the
    first row, or the default when there is no row. *)
Definition resolve_limit (data : value) : Res float :=
  (has_row <-
     (if truthy data then n <- py_len data ;; Ok (0 <? n) else Ok false) ;;
   if has_row then
     row <- py_first data ;;
     v <- py_get row "limit_value" (VInt 0) ;;
     py_float v
   else Ok default_limit)%res.

(** The list comprehension of lines 634-636: the amount of each order of
    today, in order. *)
Definition order_amounts (orders_today : value) : Res (list float) :=
  (orders <- py_iter orders_today ;;
   for_loop orders [] (fun acc o =>
     v <- py_get o "total_amount_value" (VInt 0) ;;
     f <- py_float (py_or v (VInt 0)) ;;
     Ok (acc ++ [f])%list))%res.

Definition get_spending_status (user_identifier : string) : M value :=
  let supabase_url := environ_get "SUPABASE_URL" in
  let supabase_key := environ_get "SUPABASE_SERVICE_ROLE_KEY" in
  if negb (truthy supabase_url) || negb (truthy supabase_key) then
    ret (VDict [("error", VStr "Supabase URL or service role key not configured.")])
  else
    try_except
      (create_client supabase_url supabase_key ;;;
       limit_resp <-
         execute supabase_url supabase_key
                 (Select "spending_limits" "limit_value"
                         [Eq "user_identifier" (VStr user_identifier)] None None) ;;
       match resp_error limit_resp with
       | Some error =>
           message <- error_message error ;;
           ret (VDict [("error", VStr "Failed to fetch spending limit");
                       ("details", message)])
       | None =>
           limit_value <- lift (resolve_limit (resp_data limit_resp)) ;;
           let today_start := utc_day_start w in
           orders_resp <-
             execute supabase_url supabase_key
                     (Select "orders"
                             "total_amount_value, total_amount_currency, created_at"
                             [Eq "user_identifier" (VStr user_identifier);
                              Gte "created_at" (VStr today_start)] None None) ;;
           match resp_error orders_resp with
           | Some error =>
               message <- error_message error ;;
               ret (VDict [("error", VStr "Failed to fetch today's orders");
                           ("details", message)])
           | None =>
               let orders_today := py_or (resp_data orders_resp) (VList []) in
               amounts <- lift (order_amounts orders_today) ;;
               let total_spent := py_sum amounts in
               remaining <- lift (py_rsub limit_value total_spent) ;;
               reached <- lift (py_ge total_spent limit_value) ;;
               advice <-
                 (if reached then ret advice_limit_reached
                  else
                    close <- lift (py_ge total_spent (0.9 * limit_value)%float) ;;
                    if close then ret advice_approaching
                    else ret advice_clear) ;;
               ret (VDict [("status", VStr "success");
                           ("spending_limit", VFloat limit_value);
                           ("total_spent_today", total_spent);
                           ("remaining_limit", VFloat remaining);
                           ("transactions_today", orders_today);
                           ("advice", VStr advice)])
           end
       end)
      (fun e =>
         ret (VDict [("error", VStr ("An unexpected error occurred: " ++ exc_str e))])).

End Tools.

(** ** Dispatch *)

(** An invocation of one of the nine operations that reach an outside
    service, with its arguments. *)
Inductive tool_call : Type :=
| ResearchProducts (query : string)
| RequestAmazonProductTracking (product_url : string)
| FetchAmazonProductDetails (product_id : string)
| CreateAmazonCart (product_id : string) (quantity : Z)
| GetRyeCartDetails (cart_id : string)
| CheckoutAmazonCart (cart_id : string) (buyer_info : list (string * value))
| ListMyPurchases (limit : Z)
| SetSpendingLimit (user_identifier : string) (limit_value : float)
| GetSpendingStatus (user_identifier : string).

Definition invoke {rt : Runtime} (env : Env) (w : World) (c : tool_call) : M value :=
  match c with
  | ResearchProducts q => research_products env w q
  | RequestAmazonProductTracking u => request_amazon_product_tracking env w u
  | FetchAmazonProductDetails p => fetch_amazon_product_details env w p
  | CreateAmazonCart p q => create_amazon_cart env w p q
  | GetRyeCartDetails c => get_rye_cart_details env w c
  | CheckoutAmazonCart c b => checkout_amazon_cart env w c (VDict b)
  | ListMyPurchases l => list_my_purchases env w l
  | SetSpendingLimit u l => set_spending_limit env w u l
  | GetSpendingStatus u => get_spending_status env w u
  end.

(** ** Reading results *)

(** A tool result is a failure when it is a dict with a string under
    ["error"]. *)
Definition is_failure (v : value) : bool :=
  match v with
  | VDict d => match assoc "error" d with Some (VStr _) => true | _ => false end
  | _ => false
  end.

(** A member of a JSON object ([None] when absent or not an object). *)
Definition field (k : string) (v : value) : option value :=
  match v with
  | VDict d => assoc k d
  | _ => None
  end.

(** The environment variables each operation reads before anything else. *)
Definition required_env (c : tool_call) : list string :=
  match c with
  | ResearchProducts _ => ["FIRECRAWL_API_KEY"]
  | RequestAmazonProductTracking _
  | FetchAmazonProductDetails _
  | CreateAmazonCart _ _
  | GetRyeCartDetails _ => ["RYE_AUTH_HEADER"; "RYE_SHOPPER_IP"]
  | CheckoutAmazonCart _ _
  | ListMyPurchases _
  | SetSpendingLimit _ _
  | GetSpendingStatus _ => ["SUPABASE_URL"; "SUPABASE_SERVICE_ROLE_KEY"]
  end.

(** A variable is missing when it is unset or set to the empty string. *)
Definition missing (env : Env) (name : string) : Prop :=
  env name = None \/ env name = Some "".

(** [v.get(k)] on an object: the member, or [None]. *)
Definition member (k : string) (v : value) : value :=
  match field k v with
  | Some x => x
  | None => VNone
  end.

Definition rye_configured (env : Env) : Prop :=
  truthy (environ_get env "RYE_AUTH_HEADER") = true
  /\ truthy (environ_get env "RYE_SHOPPER_IP") = true.

Definition supabase_configured (env : Env) : Prop :=
  truthy (environ_get env "SUPABASE_URL") = true
  /\ truthy (environ_get env "SUPABASE_SERVICE_ROLE_KEY") = true.

(** The request [create_amazon_cart] posts. *)
Definition create_cart_request (env : Env) (product_id : string) (quantity : Z)
  : http_request :=
  {| req_url := rye_graphql_endpoint;
     req_json :=
       VDict [("query", VStr create_cart_mutation);
              ("variables",
               VDict [("input",
                 VDict [("items",
                   VDict [("amazonCartItemsInput",
                     VList [VDict [("quantity", VInt quantity);
                                   ("productId", VStr product_id)]])])])])];
     req_headers := rye_headers (environ_get env "RYE_AUTH_HEADER")
                                (environ_get env "RYE_SHOPPER_IP") |}.

(** The request [get_rye_cart_details] posts. *)
Definition get_cart_request (env : Env) (cart_id : string) : http_request :=
  {| req_url := rye_graphql_endpoint;
     req_json := VDict [("query", VStr get_cart_query);
                        ("variables", VDict [("id", VStr cart_id)])];
     req_headers := rye_headers (environ_get env "RYE_AUTH_HEADER")
                                (environ_get env "RYE_SHOPPER_IP") |}.

(** A cart-creation response that looks successful: no top-level
    [errors], a [createCart] payload without [errors], and in it a [cart]
    with an [id]. *)
Record cart_created (response_data create_cart_payload cart_object : value)
  : Prop := {
  no_top_level_errors : truthy (member "errors" response_data) = false;
  payload_present :
    exists data, field "data" response_data = Some data
                 /\ field "createCart" data = Some create_cart_payload;
  no_operation_errors : truthy (member "errors" create_cart_payload) = false;
  cart_present : field "cart" create_cart_payload = Some cart_object;
  cart_has_id : truthy (member "id" cart_object) = true
}.

(** A store whose [cartLines] is a non-empty list. *)
Definition lines_populated (store : value) : Prop :=
  exists l ls, field "cartLines" store = Some (VList (l :: ls)).

(** A store whose [cartLines] is missing, null or empty. *)
Definition lines_empty (store : value) : Prop :=
  is_dict store = true /\ truthy (member "cartLines" store) = false.

(** A store whose [errors] is missing, null or empty. *)
Definition no_store_errors (store : value) : Prop :=
  is_dict store = true /\ truthy (member "errors" store) = false.

(** A store carrying the non-empty errors array [errs]. *)
Definition reports_errors (store : value) (errs : list value) : Prop :=
  field "errors" store = Some (VList errs) /\ errs <> [].

(** A store object whose [errors], when present, is null or an array. *)
Definition store_shaped (store : value) : Prop :=
  is_dict store = true
  /\ (member "errors" store = VNone \/ exists l, member "errors" store = VList l).

Definition empty_cart_failure (cart_object : value) : value :=
  VDict [("error",
          VStr "Cart created but appears empty or item not added successfully.");
         ("details",
          VStr "No stores or cartLines found in the response, or they are empty.");
         ("cart_details_received", cart_object)].

Definition store_error_failure (errors cart_object : value) : value :=
  VDict [("error", VStr "Store-level error reported during cart creation.");
         ("details", errors);
         ("cart_details_received", cart_object)].

(** The body of the loop of [store_level_error], for one store. *)
Definition store_check (cart : value) (store : value) : Res (option value) :=
  (e <- py_get store "errors" VNone ;;
   has_errors <-
     (if truthy e then
        es <- py_item store "errors" ;;
        n <- py_len es ;; Ok (0 <? n)
      else Ok false) ;;
   if has_errors then
     details <- py_item store "errors" ;;
     Ok (Some (store_error_failure details cart))
   else Ok None)%res.

(** [v.get(k, default)] on an object. *)
Definition field_or (k : string) (v default : value) : value :=
  match field k v with
  | Some x => x
  | None => default
  end.

(** The entry [research_products] builds for one result record. *)
Definition search_entry (record : value) : value :=
  VDict [("title", field_or "title" record (VStr "N/A"));
         ("url", field_or "url" record (VStr "N/A"));
         ("snippet", field_or "description" record (VStr ""))].

(** [search_resp.data if hasattr(search_resp, "data") else search_resp]. *)
Definition search_results (r : search_response) : value :=
  match r with
  | WithData data => data
  | Plain v => v
  end.

Definition unexpected_format_failure {rt : Runtime} (search_results : value)
  : value :=
  VDict [("error", VStr "Unexpected format from Firecrawl search.");
         ("details", VStr (py_str search_results))].

(** A cart-retrieval response that looks successful: no top-level
    [errors], a [getCart] envelope without [errors], and in it a [cart]. *)
Record cart_fetched (response_data cart_details : value) : Prop := {
  fetched_no_top_level_errors : truthy (member "errors" response_data) = false;
  fetched_envelope :
    exists data envelope,
      field "data" response_data = Some data
      /\ field "getCart" data = Some envelope
      /\ truthy (member "errors" envelope) = false
      /\ field "cart" envelope = Some cart_details;
  fetched_cart_truthy : truthy cart_details = true
}.

(** One of the three cost components of a cart: not in the [cost] object,
    null, or an amount in minor units with its currency code. *)
Inductive component : Type :=
| Absent
| Null
| Amount (minor_units : Z) (currency : string).

Definition component_fields (name : string) (c : component)
  : list (string * value) :=
  match c with
  | Absent => []
  | Null => [(name, VNone)]
  | Amount n cur => [(name, VDict [("value", VInt n); ("currency", VStr cur)])]
  end.

Definition cost_json (subtotal shipping tax : component) : value :=
  VDict (component_fields "subtotal" subtotal
         ++ component_fields "shipping" shipping
         ++ component_fields "tax" tax)%list.

(** The insert [checkout_amazon_cart] issues for a row. *)
Definition order_insert (env : Env) (row : value) : event :=
  DbExecute (environ_get env "SUPABASE_URL")
            (environ_get env "SUPABASE_SERVICE_ROLE_KEY")
            (Insert "orders" row).

Definition checkout_success (row data : value) : value :=
  VDict [("status", VStr "success");
         ("order_data", row);
         ("supabase_insert", data)].

(** *** Spending status *)

(** The two reads of [get_spending_status]. *)
Definition limit_query (user_identifier : string) : db_query :=
  Select "spending_limits" "limit_value"
         [Eq "user_identifier" (VStr user_identifier)] None None.

Definition orders_query (w : World) (user_identifier : string) : db_query :=
  Select "orders" "total_amount_value, total_amount_currency, created_at"
         [Eq "user_identifier" (VStr user_identifier);
          Gte "created_at" (VStr (utc_day_start w))] None None.

Definition status_reads (env : Env) (w : World) (user_identifier : string)
  : list event :=
  [DbExecute (environ_get env "SUPABASE_URL")
             (environ_get env "SUPABASE_SERVICE_ROLE_KEY")
             (limit_query user_identifier);
   DbExecute (environ_get env "SUPABASE_URL")
             (environ_get env "SUPABASE_SERVICE_ROLE_KEY")
             (orders_query w user_identifier)].

(** How the rows read from [spending_limits] fix the limit: the
    [limit_value] of the first row, or the default when nothing came
    back. *)
Inductive limit_resolves {rt : Runtime} : value -> float -> Prop :=
| limit_of_row (row : value) (rest : list value) (limit : float) :
    is_dict row = true ->
    py_float (field_or "limit_value" row (VInt 0)) = Ok limit ->
    limit_resolves (VList (row :: rest)) limit
| limit_by_default (data : value) :
    truthy data = false ->
    limit_resolves data default_limit.

(** An order row and the amount it counts for. *)
Definition order_has_amount {rt : Runtime} (o : value) (f : float) : Prop :=
  is_dict o = true
  /\ py_float (py_or (field_or "total_amount_value" o (VInt 0)) (VInt 0)) = Ok f.

(** [spent >= x], false when the comparison is undefined. *)
Definition at_least (spent : value) (x : float) : bool :=
  match py_ge spent x with
  | Ok b => b
  | Raise _ => false
  end.

(** The three tiers of the advisory, in the words of the specification. *)
Inductive tier : Type :=
| LimitReached
| Approaching
| Clear.

Definition spec_tier (spent : value) (limit : float) : tier :=
  if at_least spent limit then LimitReached
  else if at_least spent (0.9 * limit)%float then Approaching
  else Clear.

Definition tier_advice (t : tier) : string :=
  match t with
  | LimitReached => advice_limit_reached
  | Approaching => advice_approaching
  | Clear => advice_clear
  end.

Definition status_report (limit : float) (spent : value) (remaining : float)
    (orders_today : value) (advice : string) : value :=
  VDict [("status", VStr "success");
         ("spending_limit", VFloat limit);
         ("total_spent_today", spent);
         ("remaining_limit", VFloat remaining);
         ("transactions_today", orders_today);
         ("advice", VStr advice)].


(** ** Concrete runtimes, environments and worlds *)

Fixpoint digits_value (s : string) (acc : Z) : option Z :=
  match s with
  | EmptyString => Some acc
  | String c s' =>
      let n := Z.of_nat (Ascii.nat_of_ascii c) in
      if (48 <=? n) && (n <=? 57) then digits_value s' (10 * acc + (n - 48))
      else None
  end.

(** A runtime for concrete runs. Formatting is exact on [None], booleans,
    strings and the empty containers and elided elsewhere; [float()] reads
    unsigned decimal integers only; [Image] never raises. *)
Definition demo_runtime : Runtime := {|
  py_str := fun v =>
    match v with
    | VNone => "None"
    | VBool true => "True"
    | VBool false => "False"
    | VStr s => s
    | VList [] => "[]"
    | VDict [] => "{}"
    | _ => "..."
    end;
  exc_str := fun e =>
    match e with
    | AttributeError => "AttributeError"
    | TypeError => "TypeError"
    | ValueError => "ValueError"
    | KeyError => "KeyError"
    | IndexError => "IndexError"
    | OverflowError => "OverflowError"
    | HTTPStatusError _ text => text
    | RequestError msg => msg
    | OtherError msg => msg
    end;
  float_of_str := fun s =>
    match s with
    | EmptyString => None
    | _ => match digits_value s 0 with
           | Some n => Some (Z2float n)
           | None => None
           end
    end;
  image_init := fun _ => None
|}.

Definition empty_env : Env := fun _ => None.

Definition full_env : Env := fun name =>
  if String.eqb name "FIRECRAWL_API_KEY" then Some "fc-key"
  else if String.eqb name "RYE_AUTH_HEADER" then Some "Basic abc"
  else if String.eqb name "RYE_SHOPPER_IP" then Some "10.0.0.1"
  else if String.eqb name "SUPABASE_URL" then Some "https://db.example"
  else if String.eqb name "SUPABASE_SERVICE_ROLE_KEY" then Some "service-key"
  else None.

Definition ok_response (data : value) : db_response :=
  {| resp_error := None; resp_data := data |}.

(** A world from its three service behaviours; constructors succeed. *)
Definition make_world (searching : Res search_response) (http : Res value)
    (db : db_query -> Res db_response) : World := {|
  firecrawl_app := fun _ => None;
  firecrawl_search := fun _ _ _ => searching;
  http_post := fun _ => http;
  supabase_client := fun _ _ => None;
  db_execute := fun _ _ q => db q;
  utc_day_start := "2025-06-01T00:00:00+00:00"
|}.

Definition silent_world : World :=
  make_world (Ok (Plain (VList []))) (Ok (VDict []))
             (fun _ => Ok (ok_response (VList []))).


(** *** Sample cart-creation responses *)

Definition sample_line : value :=
  VDict [("quantity", VInt 1);
         ("product", VDict [("id", VStr "B00X"); ("title", VStr "Kettle")])].

Definition sample_error : value :=
  VDict [("code", VStr "OUT_OF_STOCK"); ("message", VStr "unavailable")].

Definition store_json (lines errors : list value) : value :=
  VDict [("cartLines", VList lines); ("errors", VList errors)].

Definition cart_json (stores : list value) : value :=
  VDict [("id", VStr "cart-1"); ("stores", VList stores)].

Definition create_cart_payload_json (stores : list value) : value :=
  VDict [("cart", cart_json stores); ("errors", VList [])].

Definition create_cart_response (stores : list value) : value :=
  VDict [("data", VDict [("createCart", create_cart_payload_json stores)])].

(** A world whose commerce endpoint answers every POST with [resp]. *)
Definition http_world (resp : value) : World :=
  make_world (Ok (Plain (VList []))) (Ok resp)
             (fun _ => Ok (ok_response (VList []))).

(** A world whose search provider answers every query with [records]. *)
Definition search_world (records : list value) : World :=
  make_world (Ok (WithData (VList records))) (Ok (VDict []))
             (fun _ => Ok (ok_response (VList []))).

(** *** Sample cart-retrieval responses *)

Definition get_cart_response (cart : value) : value :=
  VDict [("data", VDict [("getCart", VDict [("cart", cart); ("errors", VList [])])])].

Definition priced_cart (cost : value) : value :=
  VDict [("id", VStr "cart-1"); ("cost", cost); ("stores", VList [])].

(** A world for checkout: the commerce endpoint returns [cart], the
    datastore stores every row and echoes it. *)
Definition checkout_world (cart : value) : World :=
  make_world (Ok (Plain (VList []))) (Ok (get_cart_response cart))
             (fun q =>
                match q with
                | Insert _ row => Ok (ok_response (VList [row]))
                | _ => Ok (ok_response (VList []))
                end).

Definition usd_cost : value :=
  cost_json (Amount 1000 "USD") (Amount 500 "USD") (Amount 0 "USD").

(** A cart whose subtotal [value] is an object instead of a number. *)
Definition malformed_cost_cart : value :=
  priced_cart
    (VDict [("subtotal",
             VDict [("value", VDict [("amount", VInt 1000)]);
                    ("currency", VStr "USD")])]).

(** A cart whose subtotal [value] is a text that is not a number. *)
Definition textual_cost_cart : value :=
  priced_cart
    (VDict [("subtotal",
             VDict [("value", VStr "N/A"); ("currency", VStr "USD")])]).

Definition sample_buyer : value := VDict [("email", VStr "ada@example.org")].

(** *** Sample datastore contents *)


(** A world whose datastore holds [limits] for the user and [orders] for
    today. *)
Definition spending_world (limits orders : list value) : World :=
  make_world (Ok (Plain (VList []))) (Ok (VDict []))
             (fun q =>
                match q with
                | Select table _ _ _ _ =>
                    if String.eqb table "spending_limits"
                    then Ok (ok_response (VList limits))
                    else Ok (ok_response (VList orders))
                | _ => Ok (ok_response (VList []))
                end).




(** ** Further vocabulary: requests, queries and traces *)

(** The request [request_amazon_product_tracking] posts. *)
Definition tracking_request (env : Env) (product_url : string) : http_request :=
  {| req_url := rye_graphql_endpoint;
     req_json :=
       VDict [("query", VStr request_tracking_query);
              ("variables", VDict [("input", VDict [("url", VStr product_url)])])];
     req_headers := rye_headers (environ_get env "RYE_AUTH_HEADER")
                                (environ_get env "RYE_SHOPPER_IP") |}.

(** The request [fetch_amazon_product_details] posts. *)
Definition details_request (env : Env) (product_id : string) : http_request :=
  {| req_url := rye_graphql_endpoint;
     req_json :=
       VDict [("query", VStr product_details_query);
              ("variables",
               VDict [("input", VDict [("id", VStr product_id);
                                       ("marketplace", VStr "AMAZON")])])];
     req_headers := rye_headers (environ_get env "RYE_AUTH_HEADER")
                                (environ_get env "RYE_SHOPPER_IP") |}.

(** The request of each operation that talks to the commerce endpoint
    directly. *)
Definition rye_request (env : Env) (c : tool_call) : option http_request :=
  match c with
  | RequestAmazonProductTracking u => Some (tracking_request env u)
  | FetchAmazonProductDetails p => Some (details_request env p)
  | CreateAmazonCart p q => Some (create_cart_request env p q)
  | GetRyeCartDetails i => Some (get_cart_request env i)
  | _ => None
  end.

(** A datastore call with the configured URL and key. *)
Definition db_event (env : Env) (q : db_query) : event :=
  DbExecute (environ_get env "SUPABASE_URL")
            (environ_get env "SUPABASE_SERVICE_ROLE_KEY") q.

(** The read of [list_my_purchases]. *)
Definition purchases_query (limit : Z) : db_query :=
  Select "orders" "*" [] (Some ("ordered_at", true)) (Some limit).

(** The write of [set_spending_limit]. *)
Definition limit_upsert (user_identifier : string) (limit_value : float)
  : db_query :=
  Upsert "spending_limits"
         (VDict [("user_identifier", VStr user_identifier);
                 ("limit_value", VFloat limit_value)])
         "user_identifier".

(** A computation that adds nothing to the trace. *)
Definition quiet {A} (m : M A) : Prop := forall t, snd (m t) = t.

(** A datastore call, as opposed to a search, a POST or a print. *)
Definition is_db_call (ev : event) : bool :=
  match ev with
  | DbExecute _ _ _ => true
  | _ => false
  end.

(** A datastore read. *)
Definition is_select (ev : event) : bool :=
  match ev with
  | DbExecute _ _ (Select _ _ _ _ _) => true
  | _ => false
  end.

(** The snapshot entry [checkout_items] builds for one cart line. *)
Definition line_snapshot (line : value) : value :=
  let prod := py_or (member "product" line) (VDict []) in
  let price := py_or (member "price" prod) (VDict []) in
  VDict [("productId", member "id" prod);
         ("title", member "title" prod);
         ("quantity", member "quantity" line);
         ("price_value", member "value" price);
         ("price_currency", member "currency" price)].

(** A cart line the snapshot can read: an object whose [product], when
    present, is an object whose [price], when present, is an object. *)
Definition line_readable (line : value) : Prop :=
  is_dict line = true
  /\ is_dict (py_or (member "product" line) (VDict [])) = true
  /\ is_dict (py_or (member "price"
                       (py_or (member "product" line) (VDict [])))
                    (VDict [])) = true.

(** A store object with its cart lines ([cartLines] missing or null counts
    as no lines). *)
Definition store_has_lines (store : value) (lines : list value) : Prop :=
  is_dict store = true
  /\ py_or (member "cartLines" store) (VList []) = VList lines
  /\ Forall line_readable lines.

(** The URLs [fetch_amazon_product_details] turns into image previews:
    those of the images that are objects with a non-empty [url]. *)
Definition preview_urls (images : list value) : list value :=
  flat_map (fun img =>
              if is_dict img && truthy (member "url" img)
              then [member "url" img] else []) images.

Definition tracking_response (product_id : value) : value :=
  VDict [("data",
          VDict [("requestAmazonProductByURL",
                  VDict [("productId", product_id)])])].

Definition product_json (images : list value) : value :=
  VDict [("title", VStr "Kettle"); ("isAvailable", VBool true);
         ("images", VList images)].

Definition product_response (product : value) : value :=
  VDict [("data", VDict [("product", product)])].

(** A world whose datastore answers every query with [r]. *)
Definition db_world (r : Res db_response) : World :=
  make_world (Ok (Plain (VList []))) (Ok (VDict [])) (fun _ => r).

(** A world whose commerce endpoint fails every POST with [e]. *)
Definition failing_http_world (e : exc) : World :=
  make_world (Ok (Plain (VList []))) (Raise e)
             (fun _ => Ok (ok_response (VList []))).

Definition sample_db_error : db_error :=
  {| err_message := Some (VStr "permission denied");
     err_text := "APIError(permission denied)" |}.

Definition error_response (e : db_error) : db_response :=
  {| resp_error := Some e; resp_data := VNone |}.

(** *** A cart with three stores *)

Definition kettle_line : value :=
  VDict [("quantity", VInt 2);
         ("product",
          VDict [("id", VStr "B00X"); ("title", VStr "Kettle");
                 ("price", VDict [("value", VInt 1999);
                                  ("currency", VStr "USD")])])].

Definition bare_line : value := VDict [("quantity", VInt 1)].

Definition three_stores : list value :=
  [VDict [("cartLines", VList [kettle_line])];
   VDict [("cartLines", VNone)];
   VDict [("cartLines", VList [bare_line])]].

Definition three_store_cart : value :=
  VDict [("id", VStr "cart-1"); ("stores", VList three_stores)].

(** *** Statements in the words of the specification *)

(** A failure that quotes store-level errors: its [details] are the
    non-empty [errors] array of one of the stores. *)
Definition quotes_store_errors (result : value) (stores : list value) : Prop :=
  exists s errs,
    In s stores /\ reports_errors s errs
    /\ field "details" result = Some (VList errs).










(** ** Running handlers: basic facts *)

Lemma truthy_environ_missing (env : Env) (name : string) :
  missing env name -> truthy (environ_get env name) = false.
Proof.
  unfold missing, environ_get. intros [H | H]; rewrite H; reflexivity.
Qed.

Lemma missing_empty_env (name : string) : missing empty_env name.
Proof. left. reflexivity. Qed.

(** A [try] whose handler always returns never raises. *)
Lemma try_except_returns {A} (m : M A) (h : exc -> M A) :
  (forall e t, exists a t', h e t = (Ok a, t')) ->
  forall t, exists a t', try_except m h t = (Ok a, t').
Proof.
  intros Hh t. unfold try_except.
  destruct (m t) as [[a | e] t'].
  - exists a, t'. reflexivity.
  - apply Hh.
Qed.

(** ** Missing configuration *)

(** C1. Every one of the nine operations, invoked while one of the
    environment variables it requires is unset (or empty), returns at once
    a failure dict that holds only an error message, and its trace is
    empty: no search, HTTP or datastore request is issued. *)
Theorem config_missing_no_network_call :
  forall (rt : Runtime) (env : Env) (w : World) (c : tool_call) (name : string),
    In name (required_env c) ->
    missing env name ->
    exists result msg,
      run (invoke env w c) = (Ok result, [])
      /\ result = VDict [("error", VStr msg)]
      /\ is_failure result = true.
Proof.
  intros rt env w c name Hin Hmiss.
  apply truthy_environ_missing in Hmiss.
  destruct c; simpl in Hin;
    repeat (destruct Hin as [<- | Hin]; [| try contradiction]);
    unfold run, invoke,
      research_products, request_amazon_product_tracking,
      fetch_amazon_product_details, create_amazon_cart, get_rye_cart_details,
      checkout_amazon_cart, list_my_purchases, set_spending_limit,
      get_spending_status;
    cbn [forallb]; rewrite ?Hmiss, ?andb_false_r; cbn [negb orb andb];
    rewrite ?orb_true_r;
    do 2 eexists; (split; [reflexivity | split; reflexivity]).
Qed.

Lemma config_missing_no_network_call_witness :
  exists result msg,
    run (invoke (rt := demo_runtime) empty_env silent_world
                (CheckoutAmazonCart "cart-1" [])) = (Ok result, [])
    /\ result = VDict [("error", VStr msg)]
    /\ is_failure result = true.
Proof.
  apply (@config_missing_no_network_call demo_runtime empty_env silent_world
           (CheckoutAmazonCart "cart-1" []) "SUPABASE_URL").
  - simpl. left. reflexivity.
  - left. reflexivity.
Defined.

(** ** Cart creation *)

Section CartCreation.
Context {rt : Runtime} (env : Env) (w : World).

Lemma field_is_dict k v x : field k v = Some x -> is_dict v = true.
Proof. destruct v; simpl; congruence. Qed.

Lemma member_truthy_is_dict k v : truthy (member k v) = true -> is_dict v = true.
Proof. unfold member. destruct v; simpl; try discriminate. reflexivity. Qed.

Lemma field_truthy k v x :
  field k v = Some x -> truthy v = true.
Proof.
  destruct v; simpl; try discriminate. destruct d; simpl; [discriminate | reflexivity].
Qed.

Lemma truthy_of_member k v : truthy (member k v) = true -> truthy v = true.
Proof.
  unfold member. destruct v; simpl; try discriminate.
  destruct d; simpl; [discriminate | reflexivity].
Qed.

Lemma py_get_member k v :
  is_dict v = true -> py_get v k VNone = Ok (member k v).
Proof. destruct v; simpl; try discriminate. reflexivity. Qed.

Lemma py_get_field k v x d :
  field k v = Some x -> py_get v k d = Ok x.
Proof. destruct v; simpl; try discriminate. intros ->. reflexivity. Qed.

Lemma py_item_field k v x :
  field k v = Some x -> py_item v k = Ok x.
Proof. destruct v; simpl; try discriminate. intros ->. reflexivity. Qed.

Lemma member_field k v x : field k v = Some x -> member k v = x.
Proof. unfold member. intros ->. reflexivity. Qed.

Lemma truthy_member_field k v :
  truthy (member k v) = true -> field k v = Some (member k v).
Proof.
  unfold member. destruct (field k v); [reflexivity | discriminate].
Qed.

(** The guard fires when [stores] is missing, null or empty. *)
Lemma guard_fires_without_stores cart :
  is_dict cart = true ->
  truthy (member "stores" cart) = false ->
  cart_looks_empty cart = Ok true.
Proof.
  intros Hd Hs. unfold cart_looks_empty, orelse.
  rewrite (py_get_member "stores" _ Hd). simpl. rewrite Hs. reflexivity.
Qed.

(** The guard fires when the first store has no cart lines. *)
Lemma guard_fires_on_first_store cart s0 rest :
  field "stores" cart = Some (VList (s0 :: rest)) ->
  lines_empty s0 ->
  cart_looks_empty cart = Ok true.
Proof.
  intros Hs [Hd Hl]. unfold cart_looks_empty, orelse.
  rewrite (py_get_field _ _ _ Hs), (py_item_field _ _ Hs). simpl.
  rewrite (py_get_member "cartLines" _ Hd). simpl. rewrite Hl. reflexivity.
Qed.

(** The guard passes when the first store has cart lines, whatever the
    other stores hold. *)
Lemma guard_passes cart s0 rest :
  field "stores" cart = Some (VList (s0 :: rest)) ->
  lines_populated s0 ->
  cart_looks_empty cart = Ok false.
Proof.
  intros Hs (l & ls & Hl). unfold cart_looks_empty, orelse.
  rewrite (py_get_field _ _ _ Hs), (py_item_field _ _ Hs). simpl.
  rewrite (py_get_field _ _ _ Hl), (py_item_field _ _ Hl). simpl.
  reflexivity.
Qed.

(** One step of a handler. *)
Lemma bind_lift {A B} (r : Res A) (k : A -> M B) (t : list event) :
  bind (lift r) k t =
    match r with
    | Ok a => k a t
    | Raise e => (Raise e, t)
    end.
Proof. unfold bind, lift. destruct r; reflexivity. Qed.

Lemma try_bind {A B} (m : M A) (k : A -> M B) (h : exc -> M B) (t : list event) :
  try_except (bind m k) h t =
    match m t with
    | (Ok a, t') => try_except (k a) h t'
    | (Raise e, t') => h e t'
    end.
Proof. unfold try_except, bind. destruct (m t) as [[a | e] t']; reflexivity. Qed.

Lemma try_ret {A} (a : A) (h : exc -> M A) (t : list event) :
  try_except (ret a) h t = (Ok a, t).
Proof. reflexivity. Qed.

(** Symbolic execution of [create_amazon_cart] up to the structural
    guard, on a successful-looking response. *)
Ltac enter_cart_checks Hconf Hpost Hcreated :=
  let Ha := fresh "Ha" in
  let Hi := fresh "Hi" in
  let Htop := fresh "Htop" in
  let data := fresh "data" in
  let Hdata := fresh "Hdata" in
  let Hpay := fresh "Hpay" in
  let Hop := fresh "Hop" in
  let Hcart := fresh "Hcart" in
  let Hid := fresh "Hid" in
  destruct Hconf as [Ha Hi];
  destruct Hcreated as [Htop (data & Hdata & Hpay) Hop Hcart Hid];
  unfold run, create_amazon_cart; cbn [forallb]; rewrite Ha, Hi; cbn [andb negb];
  rewrite try_bind; unfold post at 1; unfold bind at 1, emit, lift at 1; cbn [app];
  match goal with
  | |- context [http_post _ ?r] =>
      match type of Hpost with
      | http_post _ ?r' = _ => change r with r'
      end
  end;
  rewrite Hpost;
  unfold get, item;
  rewrite try_bind; unfold lift at 1;
  rewrite (py_get_member "errors" _ (field_is_dict _ _ Hdata)), Htop;
  rewrite try_bind; unfold lift at 1; rewrite (py_get_field _ _ _ Hdata);
  rewrite try_bind; unfold lift at 1; rewrite (py_get_field _ _ _ Hpay);
  rewrite (field_truthy _ _ Hcart); cbn [negb];
  rewrite try_bind; unfold lift at 1;
  rewrite (py_get_member "errors" _ (field_is_dict _ _ Hcart)), Hop;
  rewrite try_bind; unfold lift at 1; rewrite (py_get_field _ _ _ Hcart);
  rewrite try_bind; rewrite (truthy_of_member _ _ Hid); cbn [negb];
  rewrite bind_lift;
  rewrite (py_get_member "id" _ (member_truthy_is_dict _ _ Hid)), Hid;
  cbn [negb ret]; rewrite try_bind; unfold lift at 1.

Lemma create_cart_guard_fires product_id quantity resp payload cart :
  rye_configured env ->
  http_post w (create_cart_request env product_id quantity) = Ok resp ->
  cart_created resp payload cart ->
  cart_looks_empty cart = Ok true ->
  run (create_amazon_cart env w product_id quantity) =
    (Ok (empty_cart_failure cart),
     [HttpPost (create_cart_request env product_id quantity)]).
Proof.
  intros Hconf Hpost Hcreated Hguard.
  enter_cart_checks Hconf Hpost Hcreated.
  rewrite Hguard. reflexivity.
Qed.

Lemma create_cart_store_error product_id quantity resp payload cart result :
  rye_configured env ->
  http_post w (create_cart_request env product_id quantity) = Ok resp ->
  cart_created resp payload cart ->
  cart_looks_empty cart = Ok false ->
  store_level_error cart = Ok (Some result) ->
  run (create_amazon_cart env w product_id quantity) =
    (Ok result, [HttpPost (create_cart_request env product_id quantity)]).
Proof.
  intros Hconf Hpost Hcreated Hguard Hloop.
  enter_cart_checks Hconf Hpost Hcreated.
  rewrite Hguard. rewrite try_bind. unfold lift at 1. rewrite Hloop. reflexivity.
Qed.

Lemma create_cart_success product_id quantity resp payload cart :
  rye_configured env ->
  http_post w (create_cart_request env product_id quantity) = Ok resp ->
  cart_created resp payload cart ->
  cart_looks_empty cart = Ok false ->
  store_level_error cart = Ok None ->
  run (create_amazon_cart env w product_id quantity) =
    (Ok payload, [HttpPost (create_cart_request env product_id quantity)]).
Proof.
  intros Hconf Hpost Hcreated Hguard Hloop.
  enter_cart_checks Hconf Hpost Hcreated.
  rewrite Hguard. rewrite try_bind. unfold lift at 1. rewrite Hloop. reflexivity.
Qed.

(** *** The loop over the stores *)

Lemma store_level_error_unfold cart stores :
  field "stores" cart = Some (VList stores) ->
  store_level_error cart = for_return stores (store_check cart).
Proof.
  intros H. unfold store_level_error. rewrite (py_get_field _ _ _ H). reflexivity.
Qed.

Lemma store_check_clean cart s :
  no_store_errors s -> store_check cart s = Ok None.
Proof.
  intros [Hd He]. unfold store_check.
  rewrite (py_get_member "errors" _ Hd). simpl. rewrite He. reflexivity.
Qed.

Lemma store_check_reports cart s errs :
  reports_errors s errs ->
  store_check cart s = Ok (Some (store_error_failure (VList errs) cart)).
Proof.
  intros [Hf Hne]. unfold store_check.
  rewrite (py_get_field _ _ _ Hf), (py_item_field _ _ Hf). simpl.
  destruct errs as [| e es]; [contradiction | reflexivity].
Qed.

Lemma store_check_clean_inv cart s :
  store_check cart s = Ok None -> no_store_errors s.
Proof.
  unfold store_check, no_store_errors. destruct s; simpl; try discriminate.
  unfold member. simpl.
  destruct (assoc "errors" d) as [e |] eqn:E; simpl; [| auto].
  destruct (truthy e) eqn:T; simpl; [| auto].
  destruct e; simpl in *; try discriminate.
  - destruct s; simpl in *; discriminate.
  - destruct l; simpl in *; discriminate.
  - destruct d0; simpl in *; discriminate.
Qed.

Lemma store_check_failure cart s r :
  store_check cart s = Ok (Some r) -> is_failure r = true.
Proof.
  unfold store_check.
  destruct (py_get s "errors" VNone) as [e |]; simpl; [| discriminate].
  destruct (truthy e); simpl.
  - destruct (py_item s "errors") as [es |]; simpl; [| discriminate].
    destruct (py_len es) as [n |]; simpl; [| discriminate].
    destruct (0 <? n); intros H; inversion H; reflexivity.
  - discriminate.
Qed.

Lemma for_return_clean cart stores :
  Forall no_store_errors stores ->
  for_return stores (store_check cart) = Ok None.
Proof.
  induction 1 as [| s rest Hs _ IH]; simpl; [reflexivity |].
  rewrite (store_check_clean cart Hs). simpl. exact IH.
Qed.

Lemma for_return_reports cart pre s post errs :
  Forall no_store_errors pre ->
  reports_errors s errs ->
  for_return (pre ++ s :: post) (store_check cart) =
    Ok (Some (store_error_failure (VList errs) cart)).
Proof.
  intros Hpre Hs. induction Hpre as [| p pre Hp _ IH]; simpl.
  - rewrite (store_check_reports cart Hs). reflexivity.
  - rewrite (store_check_clean cart Hp). simpl. exact IH.
Qed.

Lemma for_return_clean_inv cart stores :
  for_return stores (store_check cart) = Ok None ->
  Forall no_store_errors stores.
Proof.
  induction stores as [| s rest IH]; simpl; intros H; [constructor |].
  destruct (store_check cart s) as [[r |] |] eqn:E; simpl in H; try discriminate.
  constructor; [exact (store_check_clean_inv _ _ E) | auto].
Qed.

Lemma for_return_failure cart stores r :
  for_return stores (store_check cart) = Ok (Some r) -> is_failure r = true.
Proof.
  induction stores as [| s rest IH]; simpl; intros H; [discriminate |].
  destruct (store_check cart s) as [[r' |] |] eqn:E; simpl in H; try discriminate.
  - inversion H; subst. exact (store_check_failure _ _ E).
  - auto.
Qed.

(** Among well-shaped stores of which one reports errors, there is a
    first one that does. *)
Lemma first_reporting_store stores :
  Forall store_shaped stores ->
  Exists (fun s => exists errs, reports_errors s errs) stores ->
  exists pre s post errs,
    stores = (pre ++ s :: post)%list
    /\ Forall no_store_errors pre
    /\ reports_errors s errs.
Proof.
  induction 1 as [| s rest [Hd Hshape] _ IH]; intros Hex.
  - inversion Hex.
  - destruct Hshape as [Hnone | [l Hl]].
    + inversion Hex as [? ? (errs & Hf & _) | ? ? Hrest]; subst.
      * rewrite (member_field _ _ Hf) in Hnone. discriminate.
      * destruct (IH Hrest) as (pre & s' & post & errs & -> & Hpre & Hs').
        exists (s :: pre), s', post, errs.
        split; [reflexivity | split; [| exact Hs']].
        constructor; [| exact Hpre]. split; [exact Hd | rewrite Hnone; reflexivity].
    + destruct l as [| e es].
      * assert (Hclean : no_store_errors s)
          by (split; [exact Hd | rewrite Hl; reflexivity]).
        inversion Hex as [? ? (errs & Hf & Hne) | ? ? Hrest]; subst.
        -- rewrite (member_field _ _ Hf) in Hl. inversion Hl; subst. contradiction.
        -- destruct (IH Hrest) as (pre & s' & post & errs & -> & Hpre & Hs').
           exists (s :: pre), s', post, errs.
           split; [reflexivity | split; [| exact Hs']].
           constructor; assumption.
      * exists [], s, rest, (e :: es).
        split; [reflexivity | split; [constructor | split]].
        -- rewrite <- Hl. apply truthy_member_field. rewrite Hl. reflexivity.
        -- discriminate.
Qed.

(** With an object as first store the guard never raises. *)
Lemma guard_decides cart s0 rest :
  field "stores" cart = Some (VList (s0 :: rest)) ->
  is_dict s0 = true ->
  cart_looks_empty cart = Ok true
  \/ (cart_looks_empty cart = Ok false /\ lines_populated s0).
Proof.
  intros Hs Hd. unfold cart_looks_empty, orelse, lines_populated.
  rewrite (py_get_field _ _ _ Hs), (py_item_field _ _ Hs). simpl.
  destruct s0; try discriminate. simpl.
  destruct (assoc "cartLines" d) as [cl |] eqn:E; simpl; [| left; reflexivity].
  destruct (truthy cl) eqn:T; simpl; [| left; reflexivity].
  destruct cl; simpl in *; try (left; reflexivity).
  destruct l as [| l0 ls]; simpl in *; [discriminate |].
  right. split; [reflexivity | exists l0, ls; reflexivity].
Qed.

(** *** What a non-failure result tells *)

Lemma py_get_truthy_field k v x :
  py_get v k VNone = Ok x -> truthy x = true -> field k v = Some x.
Proof.
  destruct v; simpl; try discriminate.
  destruct (assoc k d); intros H; inversion H; subst; [reflexivity | discriminate].
Qed.

Lemma py_get_ok_member k v x :
  py_get v k VNone = Ok x -> member k v = x.
Proof.
  destruct v; simpl; try discriminate. unfold member. simpl.
  destruct (assoc k d); intros H; inversion H; reflexivity.
Qed.

Lemma py_get_default_field k v x d :
  py_get v k d = Ok x -> field k v = Some x \/ (field k v = None /\ x = d).
Proof.
  destruct v; simpl; try discriminate.
  destruct (assoc k d0); intros H; inversion H; auto.
Qed.

Lemma guard_passes_inv cart :
  cart_looks_empty cart = Ok false ->
  exists s0 rest,
    field "stores" cart = Some (VList (s0 :: rest)) /\ lines_populated s0.
Proof.
  unfold cart_looks_empty, orelse, lines_populated.
  destruct cart; simpl; try discriminate.
  destruct (assoc "stores" d) as [s |] eqn:E; simpl; [| discriminate].
  destruct (truthy s) eqn:T; simpl; [| discriminate].
  destruct s; simpl in *; try discriminate.
  destruct l as [| s0 rest]; simpl in *; try discriminate.
  destruct s0; simpl; try discriminate.
  destruct (assoc "cartLines" d0) as [cl |] eqn:E2; simpl; [| discriminate].
  destruct (truthy cl) eqn:T2; simpl; [| discriminate].
  destruct cl; simpl in *; try discriminate.
  destruct l as [| l0 ls]; simpl in *; try discriminate.
  intros _. exists (VDict d0), rest. split; [reflexivity |].
  exists l0, ls. exact E2.
Qed.

Ltac failure_returned H :=
  solve [ inversion H; subst; discriminate
        | match type of H with
          | context [match ?e with _ => _ end] =>
              destruct e; inversion H; subst; discriminate
          end ].

(** A result that is not a failure is the [createCart] payload of a
    response that passed every check. *)
Lemma create_cart_success_inv product_id quantity v t :
  run (create_amazon_cart env w product_id quantity) = (Ok v, t) ->
  is_failure v = false ->
  exists resp cart,
    http_post w (create_cart_request env product_id quantity) = Ok resp
    /\ cart_created resp v cart
    /\ cart_looks_empty cart = Ok false
    /\ store_level_error cart = Ok None.
Proof.
  unfold run, create_amazon_cart. intros H Hv.
  destruct (negb _) eqn:Hconf in H; [failure_returned H |].
  rewrite try_bind in H. unfold post at 1, bind at 1, emit, lift at 1 in H.
  cbn [app] in H.
  match type of H with
  | context [http_post _ ?r] =>
      change r with (create_cart_request env product_id quantity) in H
  end.
  destruct (http_post w _) as [resp | e] eqn:Hpost; [| failure_returned H].
  unfold get, item in H.
  rewrite try_bind in H. unfold lift at 1 in H.
  destruct (py_get resp "errors" VNone) as [errs |] eqn:E1; [| failure_returned H].
  destruct (truthy errs) eqn:T1.
  { rewrite try_bind in H. unfold lift at 1 in H.
    destruct (py_item resp "errors"); failure_returned H. }
  rewrite try_bind in H. unfold lift at 1 in H.
  destruct (py_get resp "data" _) as [data |] eqn:E2; [| failure_returned H].
  rewrite try_bind in H. unfold lift at 1 in H.
  destruct (py_get data "createCart" VNone) as [payload |] eqn:E3;
    [| failure_returned H].
  destruct (truthy payload) eqn:T3; cbn [negb] in H; [| failure_returned H].
  rewrite try_bind in H. unfold lift at 1 in H.
  destruct (py_get payload "errors" VNone) as [perrs |] eqn:E4;
    [| failure_returned H].
  destruct (truthy perrs) eqn:T4.
  { rewrite try_bind in H. unfold lift at 1 in H.
    destruct (py_item payload "errors"); failure_returned H. }
  rewrite try_bind in H. unfold lift at 1 in H.
  destruct (py_get payload "cart" VNone) as [cart |] eqn:E5; [| failure_returned H].
  rewrite try_bind in H.
  destruct (truthy cart) eqn:T5; cbn [negb] in H; [| failure_returned H].
  rewrite bind_lift in H.
  destruct (py_get cart "id" VNone) as [i |] eqn:E6; [| failure_returned H].
  cbn [ret] in H.
  destruct (truthy i) eqn:T6; cbn [negb] in H; [| failure_returned H].
  rewrite try_bind in H. unfold lift at 1 in H.
  destruct (cart_looks_empty cart) as [[|] |] eqn:G; try failure_returned H.
  rewrite try_bind in H. unfold lift at 1 in H.
  destruct (store_level_error cart) as [[r |] |] eqn:L; try failure_returned H.
  - exfalso. rewrite try_ret in H. inversion H; subst.
    destruct (guard_passes_inv _ G) as (s0 & rest & Hs & _).
    rewrite (store_level_error_unfold _ Hs) in L.
    rewrite (for_return_failure _ _ L) in Hv. discriminate.
  - rewrite try_ret in H. inversion H; subst.
    exists resp, cart. repeat split; auto.
    + rewrite (py_get_ok_member _ _ E1). exact T1.
    + pose proof (py_get_truthy_field _ _ E3 T3) as Hp.
      exists data. split; [| exact Hp].
      destruct (py_get_default_field _ _ _ E2) as [Hd | [_ ->]]; [exact Hd |].
      simpl in Hp. discriminate.
    + rewrite (py_get_ok_member _ _ E4). exact T4.
    + exact (py_get_truthy_field _ _ E5 T5).
    + rewrite (py_get_ok_member _ _ E6). exact T6.
Qed.

End CartCreation.

(** *** Properties of cart creation *)

Lemma cart_created_sample stores :
  cart_created (create_cart_response stores) (create_cart_payload_json stores)
               (cart_json stores).
Proof.
  constructor; try reflexivity.
  exists (VDict [("createCart", create_cart_payload_json stores)]).
  split; reflexivity.
Qed.

Lemma full_env_rye : rye_configured full_env.
Proof. split; reflexivity. Qed.

(** C5. On a response that carries no error field but whose cart has no
    stores (missing, null or empty list), or whose first store has no cart
    lines, [create_amazon_cart] returns the "appears empty" failure after
    its single POST. Conversely a result that is not a failure is the
    [createCart] payload of a response that passed every check: no
    top-level or operation-level errors, a cart with an id, a first store
    with cart lines, and no store reporting errors. *)
Theorem create_cart_empty_is_failure :
  forall (rt : Runtime) (env : Env) (w : World) (product_id : string)
         (quantity : Z),
    (forall resp payload cart,
        rye_configured env ->
        http_post w (create_cart_request env product_id quantity) = Ok resp ->
        cart_created resp payload cart ->
        (truthy (member "stores" cart) = false
         \/ exists s0 rest,
              field "stores" cart = Some (VList (s0 :: rest)) /\ lines_empty s0) ->
        run (create_amazon_cart env w product_id quantity) =
          (Ok (empty_cart_failure cart),
           [HttpPost (create_cart_request env product_id quantity)])
        /\ is_failure (empty_cart_failure cart) = true)
    /\ (forall v t,
          run (create_amazon_cart env w product_id quantity) = (Ok v, t) ->
          is_failure v = false ->
          exists resp cart s0 rest,
            http_post w (create_cart_request env product_id quantity) = Ok resp
            /\ cart_created resp v cart
            /\ field "stores" cart = Some (VList (s0 :: rest))
            /\ lines_populated s0
            /\ Forall no_store_errors (s0 :: rest)).
Proof.
  intros rt env w product_id quantity. split.
  - intros resp payload cart Hconf Hpost Hcreated Hempty.
    split; [| reflexivity].
    eapply create_cart_guard_fires; [exact Hconf | exact Hpost | exact Hcreated |].
    destruct Hempty as [Hnone | (s0 & rest & Hs & Hl)].
    + apply guard_fires_without_stores; [| exact Hnone].
      exact (member_truthy_is_dict _ _ (cart_has_id Hcreated)).
    + exact (guard_fires_on_first_store _ Hs Hl).
  - intros v t Hrun Hv.
    destruct (create_cart_success_inv _ _ _ _ Hrun Hv)
      as (resp & cart & Hpost & Hcreated & Hguard & Hloop).
    destruct (guard_passes_inv _ Hguard) as (s0 & rest & Hs & Hl).
    exists resp, cart, s0, rest.
    rewrite (store_level_error_unfold _ Hs) in Hloop.
    split; [exact Hpost | split; [exact Hcreated | split; [exact Hs |]]].
    split; [exact Hl | exact (for_return_clean_inv _ _ Hloop)].
Qed.

Lemma create_cart_empty_is_failure_witness :
  (run (create_amazon_cart (rt := demo_runtime) full_env
          (http_world (create_cart_response [])) "B00X" 1) =
     (Ok (empty_cart_failure (cart_json [])),
      [HttpPost (create_cart_request full_env "B00X" 1)])
   /\ is_failure (empty_cart_failure (cart_json [])) = true)
  /\ exists resp cart s0 rest,
       http_post (http_world (create_cart_response [store_json [sample_line] []]))
                 (create_cart_request full_env "B00X" 1) = Ok resp
       /\ cart_created resp
            (create_cart_payload_json [store_json [sample_line] []]) cart
       /\ field "stores" cart = Some (VList (s0 :: rest))
       /\ lines_populated s0
       /\ Forall no_store_errors (s0 :: rest).
Proof.
  split.
  - apply (proj1 (@create_cart_empty_is_failure demo_runtime full_env
                    (http_world (create_cart_response [])) "B00X" 1)
             (create_cart_response []) (create_cart_payload_json [])
             (cart_json [])).
    + exact full_env_rye.
    + reflexivity.
    + apply cart_created_sample.
    + left. reflexivity.
  - apply (proj2 (@create_cart_empty_is_failure demo_runtime full_env
                    (http_world (create_cart_response [store_json [sample_line] []]))
                    "B00X" 1)
             (create_cart_payload_json [store_json [sample_line] []])
             [HttpPost (create_cart_request full_env "B00X" 1)]).
    + reflexivity.
    + reflexivity.
Defined.

(** C9. The structural guard looks at the first store only. On a
    successful-looking response whose first store has missing, null or empty
    [cartLines], the handler returns the "appears empty" failure whatever
    the later stores contain; and when the first store has cart lines and
    no store reports errors, the payload is returned whatever the
    [cartLines] of the later stores are. *)
Theorem create_cart_guard_first_store_only :
  forall (rt : Runtime) (env : Env) (w : World) (product_id : string)
         (quantity : Z) (resp payload cart s0 : value) (rest : list value),
    rye_configured env ->
    http_post w (create_cart_request env product_id quantity) = Ok resp ->
    cart_created resp payload cart ->
    field "stores" cart = Some (VList (s0 :: rest)) ->
    (lines_empty s0 ->
     run (create_amazon_cart env w product_id quantity) =
       (Ok (empty_cart_failure cart),
        [HttpPost (create_cart_request env product_id quantity)])
     /\ is_failure (empty_cart_failure cart) = true)
    /\ (lines_populated s0 ->
        Forall no_store_errors (s0 :: rest) ->
        run (create_amazon_cart env w product_id quantity) =
          (Ok payload, [HttpPost (create_cart_request env product_id quantity)])).
Proof.
  intros rt env w product_id quantity resp payload cart s0 rest
         Hconf Hpost Hcreated Hs.
  split.
  - intros Hl. split; [| reflexivity].
    eapply create_cart_guard_fires; [exact Hconf | exact Hpost | exact Hcreated |].
    exact (guard_fires_on_first_store _ Hs Hl).
  - intros Hl Hclean.
    eapply create_cart_success; [exact Hconf | exact Hpost | exact Hcreated | |].
    + exact (guard_passes _ Hs Hl).
    + rewrite (store_level_error_unfold _ Hs). exact (for_return_clean _ Hclean).
Qed.

Lemma create_cart_guard_first_store_only_witness :
  (run (create_amazon_cart (rt := demo_runtime) full_env
          (http_world (create_cart_response
                         [store_json [] []; store_json [sample_line] []]))
          "B00X" 1) =
     (Ok (empty_cart_failure
            (cart_json [store_json [] []; store_json [sample_line] []])),
      [HttpPost (create_cart_request full_env "B00X" 1)])
   /\ is_failure
        (empty_cart_failure
           (cart_json [store_json [] []; store_json [sample_line] []])) = true)
  /\ run (create_amazon_cart (rt := demo_runtime) full_env
            (http_world (create_cart_response
                           [store_json [sample_line] []; store_json [] []]))
            "B00X" 1) =
       (Ok (create_cart_payload_json
              [store_json [sample_line] []; store_json [] []]),
        [HttpPost (create_cart_request full_env "B00X" 1)]).
Proof.
  split.
  - apply (proj1 (@create_cart_guard_first_store_only demo_runtime full_env
                    (http_world (create_cart_response
                                   [store_json [] []; store_json [sample_line] []]))
                    "B00X" 1 _ _ _ _ _
                    full_env_rye eq_refl
                    (cart_created_sample
                       [store_json [] []; store_json [sample_line] []])
                    eq_refl)).
    split; reflexivity.
  - apply (proj2 (@create_cart_guard_first_store_only demo_runtime full_env
                    (http_world (create_cart_response
                                   [store_json [sample_line] []; store_json [] []]))
                    "B00X" 1 _ _ _ _ _
                    full_env_rye eq_refl
                    (cart_created_sample
                       [store_json [sample_line] []; store_json [] []])
                    eq_refl)).
    + exists sample_line, []. reflexivity.
    + repeat constructor.
Defined.

(** C6. On a successful-looking response whose stores are objects and of
    which one carries a non-empty [errors] array: when the first store has
    cart lines, so that the structural guard passes, the result is the
    store-level failure whose [details] are the [errors] array of the first
    store that reports errors, whether or not that store has cart lines;
    when the first store has no cart lines the guard answers first, and the
    result is the "appears empty" failure, whose [details] are its fixed
    text and not the errors. *)
Theorem create_cart_store_errors_reported :
  forall (rt : Runtime) (env : Env) (w : World) (product_id : string)
         (quantity : Z) (resp payload cart s0 : value) (rest : list value),
    rye_configured env ->
    http_post w (create_cart_request env product_id quantity) = Ok resp ->
    cart_created resp payload cart ->
    field "stores" cart = Some (VList (s0 :: rest)) ->
    Forall store_shaped (s0 :: rest) ->
    Exists (fun s => exists errs, reports_errors s errs) (s0 :: rest) ->
    (lines_populated s0 ->
     exists pre s post errs,
       s0 :: rest = (pre ++ s :: post)%list
       /\ Forall no_store_errors pre
       /\ reports_errors s errs
       /\ run (create_amazon_cart env w product_id quantity) =
            (Ok (store_error_failure (VList errs) cart),
             [HttpPost (create_cart_request env product_id quantity)])
       /\ is_failure (store_error_failure (VList errs) cart) = true
       /\ quotes_store_errors (store_error_failure (VList errs) cart)
                              (s0 :: rest))
    /\ (~ lines_populated s0 ->
        run (create_amazon_cart env w product_id quantity) =
          (Ok (empty_cart_failure cart),
           [HttpPost (create_cart_request env product_id quantity)])
        /\ is_failure (empty_cart_failure cart) = true
        /\ field "cart_details_received" (empty_cart_failure cart) = Some cart
        /\ ~ quotes_store_errors (empty_cart_failure cart) (s0 :: rest)).
Proof.
  intros rt env w product_id quantity resp payload cart s0 rest
         Hconf Hpost Hcreated Hs Hshape Hex.
  destruct (first_reporting_store Hshape Hex)
    as (pre & s & post & errs & Hsplit & Hpre & Hrep).
  assert (Hloop : store_level_error cart =
                  Ok (Some (store_error_failure (VList errs) cart))).
  { rewrite (store_level_error_unfold _ Hs), Hsplit.
    exact (for_return_reports cart post Hpre Hrep). }
  assert (Hd0 : is_dict s0 = true)
    by (inversion Hshape as [| ? ? [Hd _] _]; exact Hd).
  split.
  - intros Hl. exists pre, s, post, errs.
    split; [exact Hsplit | split; [exact Hpre | split; [exact Hrep |]]].
    split; [| split; [reflexivity |]].
    + eapply create_cart_store_error;
        [exact Hconf | exact Hpost | exact Hcreated
        | exact (guard_passes _ Hs Hl) | exact Hloop].
    + exists s, errs. split; [| split; [exact Hrep | reflexivity]].
      rewrite Hsplit. apply in_or_app. right. left. reflexivity.
  - intros Hl.
    destruct (guard_decides _ Hs Hd0) as [Hfire | [_ Hpop]];
      [| contradiction].
    split; [| split; [reflexivity | split; [reflexivity |]]].
    + eapply create_cart_guard_fires;
        [exact Hconf | exact Hpost | exact Hcreated | exact Hfire].
    + intros (s' & errs' & _ & _ & Hdet). discriminate Hdet.
Qed.

Lemma store_shaped_sample lines errors : store_shaped (store_json lines errors).
Proof. split; [reflexivity | right; exists errors; reflexivity]. Qed.

Lemma create_cart_store_errors_reported_witness :
  (exists pre s post errs,
      [store_json [sample_line] []; store_json [sample_line] [sample_error]] =
        (pre ++ s :: post)%list
      /\ Forall no_store_errors pre
      /\ reports_errors s errs
      /\ run (create_amazon_cart (rt := demo_runtime) full_env
                (http_world
                   (create_cart_response
                      [store_json [sample_line] [];
                       store_json [sample_line] [sample_error]])) "B00X" 1) =
           (Ok (store_error_failure (VList errs)
                  (cart_json [store_json [sample_line] [];
                              store_json [sample_line] [sample_error]])),
            [HttpPost (create_cart_request full_env "B00X" 1)])
      /\ is_failure
           (store_error_failure (VList errs)
              (cart_json [store_json [sample_line] [];
                          store_json [sample_line] [sample_error]])) = true
      /\ quotes_store_errors
           (store_error_failure (VList errs)
              (cart_json [store_json [sample_line] [];
                          store_json [sample_line] [sample_error]]))
           [store_json [sample_line] [];
            store_json [sample_line] [sample_error]])
  /\ run (create_amazon_cart (rt := demo_runtime) full_env
            (http_world
               (create_cart_response [store_json [] [sample_error]]))
            "B00X" 1) =
       (Ok (empty_cart_failure (cart_json [store_json [] [sample_error]])),
        [HttpPost (create_cart_request full_env "B00X" 1)]).
Proof.
  split.
  - assert (Hshape : Forall store_shaped
                       [store_json [sample_line] [];
                        store_json [sample_line] [sample_error]]).
    { constructor; [apply store_shaped_sample |].
      constructor; [apply store_shaped_sample | constructor]. }
    assert (Hex : Exists (fun s => exists errs, reports_errors s errs)
                    [store_json [sample_line] [];
                     store_json [sample_line] [sample_error]]).
    { apply Exists_cons_tl. apply Exists_cons_hd. exists [sample_error].
      split; [reflexivity | discriminate]. }
    apply (proj1 (@create_cart_store_errors_reported demo_runtime full_env
                    (http_world
                       (create_cart_response
                          [store_json [sample_line] [];
                           store_json [sample_line] [sample_error]]))
                    "B00X" 1
                    (create_cart_response
                       [store_json [sample_line] [];
                        store_json [sample_line] [sample_error]])
                    (create_cart_payload_json
                       [store_json [sample_line] [];
                        store_json [sample_line] [sample_error]])
                    (cart_json
                       [store_json [sample_line] [];
                        store_json [sample_line] [sample_error]])
                    (store_json [sample_line] [])
                    [store_json [sample_line] [sample_error]]
                    full_env_rye eq_refl
                    (cart_created_sample
                       [store_json [sample_line] [];
                        store_json [sample_line] [sample_error]])
                    eq_refl Hshape Hex)).
    exists sample_line, []. reflexivity.
  - assert (Hshape : Forall store_shaped [store_json [] [sample_error]]).
    { constructor; [apply store_shaped_sample | constructor]. }
    assert (Hex : Exists (fun s => exists errs, reports_errors s errs)
                    [store_json [] [sample_error]]).
    { apply Exists_cons_hd. exists [sample_error].
      split; [reflexivity | discriminate]. }
    apply (proj2 (@create_cart_store_errors_reported demo_runtime full_env
                    (http_world
                       (create_cart_response [store_json [] [sample_error]]))
                    "B00X" 1
                    (create_cart_response [store_json [] [sample_error]])
                    (create_cart_payload_json [store_json [] [sample_error]])
                    (cart_json [store_json [] [sample_error]])
                    (store_json [] [sample_error]) []
                    full_env_rye eq_refl
                    (cart_created_sample [store_json [] [sample_error]])
                    eq_refl Hshape Hex)).
    intros (l & ls & Hl). discriminate Hl.
Defined.

(** The statement of C6 without the condition on the first store fails.
    With a first store that has no cart lines, the store that carries the
    errors being that one or a later one with cart lines, the handler
    returns the "appears empty" failure and its [details] quote no store's
    errors. *)
Lemma create_cart_store_errors_not_quoted :
  (Exists (fun s => exists errs, reports_errors s errs)
          [store_json [] [sample_error]]
   /\ exists result,
       fst (run (create_amazon_cart (rt := demo_runtime) full_env
                   (http_world
                      (create_cart_response [store_json [] [sample_error]]))
                   "B00X" 1)) = Ok result
       /\ is_failure result = true
       /\ ~ quotes_store_errors result [store_json [] [sample_error]])
  /\ (Exists (fun s => exists errs, reports_errors s errs)
             [store_json [] []; store_json [sample_line] [sample_error]]
      /\ exists result,
          fst (run (create_amazon_cart (rt := demo_runtime) full_env
                      (http_world
                         (create_cart_response
                            [store_json [] [];
                             store_json [sample_line] [sample_error]]))
                      "B00X" 1)) = Ok result
          /\ is_failure result = true
          /\ ~ quotes_store_errors result
                 [store_json [] [];
                  store_json [sample_line] [sample_error]]).
Proof.
  split; split.
  - constructor. exists [sample_error]. split; [reflexivity | discriminate].
  - eexists. split; [reflexivity | split; [reflexivity |]].
    intros (s & errs & _ & _ & Hdet). discriminate Hdet.
  - apply Exists_cons_tl. constructor. exists [sample_error].
    split; [reflexivity | discriminate].
  - eexists. split; [reflexivity | split; [reflexivity |]].
    intros (s & errs & _ & _ & Hdet). discriminate Hdet.
Qed.

(** ** Product research *)

Lemma py_get_field_or k v d :
  is_dict v = true -> py_get v k d = Ok (field_or k v d).
Proof. destruct v; simpl; try discriminate. reflexivity. Qed.

Lemma search_entries_loop records acc :
  Forall (fun r => is_dict r = true) records ->
  for_loop records acc (fun acc result =>
    (title <- py_get result "title" (VStr "N/A") ;;
     url <- py_get result "url" (VStr "N/A") ;;
     snippet <- py_get result "description" (VStr "") ;;
     Ok (acc ++ [VDict [("title", title); ("url", url);
                        ("snippet", snippet)]])%list)%res) =
    Ok (acc ++ map search_entry records)%list.
Proof.
  intros H. revert acc. induction H as [| r rest Hr _ IH]; intros acc; simpl.
  - rewrite app_nil_r. reflexivity.
  - rewrite !py_get_field_or by exact Hr. simpl. rewrite IH, <- app_assoc.
    reflexivity.
Qed.

(** What [research_products] returns on a sequence of result records: one
    entry per record, in order, when there is at least one record; the
    "unexpected format" failure on the empty sequence. *)
Lemma research_products_on_records
    (rt : Runtime) (env : Env) (w : World) (query key : string)
    (resp : search_response) (records : list value) :
  env "FIRECRAWL_API_KEY" = Some key ->
  key <> "" ->
  firecrawl_app w (VStr key) = None ->
  firecrawl_search w (VStr key) query 10 = Ok resp ->
  search_results resp = VList records ->
  Forall (fun r => is_dict r = true) records ->
  run (research_products env w query) =
    (Ok (match records with
         | [] => unexpected_format_failure (VList [])
         | _ => VDict [("results", VList (map search_entry records))]
         end),
     [SearchCall (VStr key) query 10]).
Proof.
  intros Hkey Hne Happ Hsearch Hres Hrec.
  unfold run, research_products, environ_get. rewrite Hkey.
  assert (Ht : truthy (VStr key) = true).
  { simpl. destruct key; [contradiction | reflexivity]. }
  rewrite Ht. cbn [negb].
  rewrite try_bind. unfold FirecrawlApp, of_ctor. rewrite Happ. cbn [ret].
  rewrite try_bind. unfold search, bind at 1, emit, lift at 1. cbn [app].
  rewrite Hsearch. fold (search_results resp). rewrite Hres.
  destruct records as [| r rest]; [reflexivity |].
  cbn [truthy]. rewrite try_bind. unfold lift at 1. cbn [py_iter rbind].
  rewrite (search_entries_loop [] Hrec). reflexivity.
Qed.

(** C8. On the empty sequence of results, whether it arrives as the [data]
    attribute of the response or as the response itself,
    [research_products] returns the "unexpected format" failure, not a
    success with an empty [results] list; with one record it returns the
    success with one entry. *)
Theorem research_products_empty_sequence_is_failure :
  forall rt : Runtime,
    run (research_products full_env (search_world []) "kettle") =
      (Ok (unexpected_format_failure (VList [])),
       [SearchCall (VStr "fc-key") "kettle" 10])
    /\ is_failure (unexpected_format_failure (VList [])) = true
    /\ fst (run (research_products full_env
                   (make_world (Ok (Plain (VList []))) (Ok (VDict []))
                               (fun _ => Ok (ok_response (VList []))))
                   "kettle")) =
         Ok (unexpected_format_failure (VList []))
    /\ fst (run (research_products full_env
                   (search_world [VDict [("title", VStr "Kettle")]]) "kettle")) =
         Ok (VDict [("results",
                     VList [VDict [("title", VStr "Kettle");
                                   ("url", VStr "N/A");
                                   ("snippet", VStr "")]])]).
Proof.
  intros rt. repeat split.
Qed.

(** ** Checkout *)

Lemma full_env_supabase : supabase_configured full_env.
Proof. split; reflexivity. Qed.

Lemma bind_emit {B} (ev : event) (k : unit -> M B) (t : list event) :
  bind (emit ev) k t = k tt (t ++ [ev])%list.
Proof. reflexivity. Qed.

Lemma bind_run {A B} (m : M A) (k : A -> M B) (t t' : list event) (a : A) :
  m t = (Ok a, t') -> bind m k t = k a t'.
Proof. intros H. unfold bind. rewrite H. reflexivity. Qed.

(** [get_rye_cart_details] on a successful-looking response. *)
Lemma get_cart_returns (rt : Runtime) (env : Env) (w : World)
    (cart_id : string) (resp cart : value) :
  rye_configured env ->
  http_post w (get_cart_request env cart_id) = Ok resp ->
  cart_fetched resp cart ->
  run (get_rye_cart_details env w cart_id) =
    (Ok cart, [HttpPost (get_cart_request env cart_id)]).
Proof.
  intros [Ha Hi] Hpost [Htop (data & envl & Hdata & Henv & Hop & Hcart) Ht].
  unfold run, get_rye_cart_details. cbn [forallb]. rewrite Ha, Hi. cbn [andb negb].
  rewrite try_bind. unfold post at 1, bind at 1, emit, lift at 1. cbn [app].
  change (http_post w _) with (http_post w (get_cart_request env cart_id)).
  rewrite Hpost. unfold get, item.
  rewrite try_bind. unfold lift at 1.
  rewrite (py_get_member "errors" _ (field_is_dict _ _ Hdata)), Htop.
  rewrite try_bind. unfold lift at 1. rewrite (py_get_field _ _ _ Hdata).
  rewrite try_bind. unfold lift at 1. rewrite (py_get_field _ _ _ Henv).
  rewrite (field_truthy _ _ Hcart). cbn [negb].
  rewrite try_bind. unfold lift at 1.
  rewrite (py_get_member "errors" _ (field_is_dict _ _ Hcart)), Hop.
  rewrite try_bind. unfold lift at 1. rewrite (py_get_field _ _ _ Hcart).
  rewrite Ht. reflexivity.
Qed.

Section Checkout.
Context {rt : Runtime} (env : Env) (w : World).
Variables (cart_id : string) (buyer_info cart : value) (t0 : list event).
Variables (total_value : float) (total_currency : value) (items : list value).

Hypothesis configured : supabase_configured env.
Hypothesis fetched : run (get_rye_cart_details env w cart_id) = (Ok cart, t0).
Hypothesis cart_is_dict : is_dict cart = true.
Hypothesis cart_no_error : truthy (member "error" cart) = false.
Hypothesis total_ok : checkout_total cart = Ok (total_value, total_currency).
Hypothesis items_ok : checkout_items cart = Ok items.
Hypothesis client_ok :
  supabase_client w (environ_get env "SUPABASE_URL")
                  (environ_get env "SUPABASE_SERVICE_ROLE_KEY") = None.
Hypothesis buyer_is_dict : is_dict buyer_info = true.

Let row : value :=
  order_record cart_id (member "email" buyer_info) total_value total_currency
               items.

Let trace : list event :=
  (t0 ++ [Printed ("checkout_amazon_cart: cart_details = " ++ py_str cart);
          Printed ("checkout_amazon_cart: inserting order_data = " ++ py_str row);
          order_insert env row])%list.

Let outcome : Res db_response :=
  db_execute w (environ_get env "SUPABASE_URL")
             (environ_get env "SUPABASE_SERVICE_ROLE_KEY") (Insert "orders" row).

Lemma checkout_reaches_insert :
  run (checkout_amazon_cart env w cart_id buyer_info) =
    try_except
      (resp <- lift outcome ;;
       match resp_error resp with
       | Some error =>
           message <- error_message error ;;
           ret (VDict [("error", VStr "Supabase insert failed");
                       ("details", py_or message (VStr (err_text error)));
                       ("order_data", row)])
       | None => ret (checkout_success row (resp_data resp))
       end)
      (fun e => ret (VDict [("error", VStr ("Checkout failed: " ++ exc_str e))]))
      trace.
Proof.
  destruct configured as [Hu Hk].
  unfold run, checkout_amazon_cart. rewrite Hu, Hk. cbn [negb orb].
  rewrite bind_run with (1 := fetched). unfold print at 1. rewrite bind_emit.
  rewrite cart_is_dict. cbn [negb]. unfold get at 1. rewrite bind_lift.
  rewrite (py_get_member "error" _ cart_is_dict), cart_no_error.
  rewrite bind_lift, total_ok, bind_lift, items_ok.
  rewrite try_bind. unfold create_client, of_ctor. rewrite client_ok. cbn [ret].
  rewrite try_bind. unfold get at 1, lift at 1.
  rewrite (py_get_member "email" _ buyer_is_dict). cbn [fst snd].
  rewrite try_bind. unfold print, emit at 1.
  unfold execute. unfold try_except, bind, emit, lift. cbn [app].
  unfold trace, order_insert, outcome, row. rewrite <- !app_assoc. reflexivity.
Qed.

(** The insert is issued, with the computed row, whatever the datastore
    answers. *)
Lemma checkout_trace :
  snd (run (checkout_amazon_cart env w cart_id buyer_info)) = trace.
Proof.
  rewrite checkout_reaches_insert. unfold try_except, bind, lift.
  destruct outcome as [resp | e]; [| reflexivity].
  destruct (resp_error resp) as [err |]; [| reflexivity].
  unfold error_message. destruct (err_message err); reflexivity.
Qed.

(** When the datastore accepts the row, checkout succeeds. *)
Lemma checkout_succeeds data :
  outcome = Ok (ok_response data) ->
  run (checkout_amazon_cart env w cart_id buyer_info) =
    (Ok (checkout_success row data), trace).
Proof.
  intros H. rewrite checkout_reaches_insert. unfold try_except, bind, lift.
  rewrite H. reflexivity.
Qed.

End Checkout.

(** *** The total of the order *)


(** *** Properties of checkout *)

Lemma cart_fetched_sample cart :
  truthy cart = true -> cart_fetched (get_cart_response cart) cart.
Proof.
  intros H. constructor; [reflexivity | | exact H].
  exists (VDict [("getCart", VDict [("cart", cart); ("errors", VList [])])]),
         (VDict [("cart", cart); ("errors", VList [])]).
  repeat split; reflexivity.
Qed.









(** C10. [checkout_amazon_cart] does not check that [buyer_info] has an
    email. For a [buyer_info] dict without an ["email"] key, once the cart is
    fetched and its totals and items are computed, the order row is inserted
    with a null [user_identifier], a null [rye_order_id] and status
    ["CREATED"], and when the datastore accepts the row the result is the
    success dict. *)
Theorem checkout_without_email_inserts :
  forall (rt : Runtime) (env : Env) (w : World) (cart_id : string)
         (buyer_info : list (string * value)) (cart : value)
         (t0 : list event) (total : float) (currency : value)
         (items : list value) (data : value),
    assoc "email" buyer_info = None ->
    supabase_configured env ->
    run (get_rye_cart_details env w cart_id) = (Ok cart, t0) ->
    is_dict cart = true ->
    truthy (member "error" cart) = false ->
    checkout_total cart = Ok (total, currency) ->
    checkout_items cart = Ok items ->
    supabase_client w (environ_get env "SUPABASE_URL")
                    (environ_get env "SUPABASE_SERVICE_ROLE_KEY") = None ->
    let row := order_record cart_id VNone total currency items in
    db_execute w (environ_get env "SUPABASE_URL")
               (environ_get env "SUPABASE_SERVICE_ROLE_KEY")
               (Insert "orders" row) = Ok (ok_response data) ->
    fst (run (checkout_amazon_cart env w cart_id (VDict buyer_info))) =
      Ok (checkout_success row data)
    /\ is_failure (checkout_success row data) = false
    /\ In (order_insert env row)
          (snd (run (checkout_amazon_cart env w cart_id (VDict buyer_info))))
    /\ field "user_identifier" row = Some VNone
    /\ field "rye_order_id" row = Some VNone
    /\ field "status" row = Some (VStr "CREATED").
Proof.
  intros rt env w cart_id buyer_info cart t0 total currency items data
         Hemail Hconf Hget Hdict Herr Htotal Hitems Hclient row Hdb.
  assert (Hmember : member "email" (VDict buyer_info) = VNone).
  { unfold member. simpl. rewrite Hemail. reflexivity. }
  pose proof (checkout_succeeds w cart_id (VDict buyer_info)
                Hconf Hget Hdict Herr Htotal Hitems Hclient eq_refl
                (data := data)) as Hrun.
  rewrite Hmember in Hrun. specialize (Hrun Hdb).
  rewrite Hrun. cbn [fst snd].
  split; [reflexivity | split; [reflexivity |]].
  split; [| repeat split].
  apply in_or_app. right. right. right. left. reflexivity.
Qed.

Lemma checkout_without_email_inserts_witness :
  let cart := priced_cart usd_cost in
  let row := order_record "cart-1" VNone 15%float (VStr "USD") [] in
  fst (run (checkout_amazon_cart (rt := demo_runtime) full_env
              (checkout_world cart) "cart-1"
              (VDict [("name", VStr "Ada")]))) =
    Ok (checkout_success row (VList [row]))
  /\ is_failure (checkout_success row (VList [row])) = false
  /\ In (order_insert full_env row)
        (snd (run (checkout_amazon_cart (rt := demo_runtime) full_env
                     (checkout_world cart) "cart-1"
                     (VDict [("name", VStr "Ada")]))))
  /\ field "user_identifier" row = Some VNone
  /\ field "rye_order_id" row = Some VNone
  /\ field "status" row = Some (VStr "CREATED").
Proof.
  intros cart row.
  apply (@checkout_without_email_inserts demo_runtime full_env
           (checkout_world cart) "cart-1" [("name", VStr "Ada")] cart
           [HttpPost (get_cart_request full_env "cart-1")]
           15%float (VStr "USD") [] (VList [row]));
    try reflexivity.
  exact full_env_supabase.
Defined.

(** ** The tool boundary *)

(** The eight operations other than checkout keep every statement after
    the configuration check inside [try], so they always return. *)
Lemma handlers_other_than_checkout_return
    (rt : Runtime) (env : Env) (w : World) (c : tool_call) :
  match c with
  | CheckoutAmazonCart _ _ => False
  | _ => True
  end ->
  exists v t, run (invoke env w c) = (Ok v, t).
Proof.
  unfold run. destruct c; intros H; try contradiction; clear H; simpl;
    unfold research_products, request_amazon_product_tracking,
      fetch_amazon_product_details, create_amazon_cart, get_rye_cart_details,
      list_my_purchases, set_spending_limit, get_spending_status;
    match goal with
    | |- context [if ?b then _ else _] => destruct b
    end;
    try (do 2 eexists; reflexivity);
    apply try_except_returns; intros e t; destruct e; do 2 eexists; reflexivity.
Qed.

(** Checkout also needs the commerce configuration: without it the cart
    fetch fails at once and checkout returns a failure without any network
    call. *)
Lemma checkout_without_commerce_config
    (rt : Runtime) (env : Env) (w : World) (cart_id : string)
    (buyer_info : value) (name : string) :
  supabase_configured env ->
  In name ["RYE_AUTH_HEADER"; "RYE_SHOPPER_IP"] ->
  missing env name ->
  exists result t,
    run (checkout_amazon_cart env w cart_id buyer_info) = (Ok result, t)
    /\ is_failure result = true
    /\ network_calls t = [].
Proof.
  intros [Hu Hk] Hin Hmiss. apply truthy_environ_missing in Hmiss.
  assert (Hget : run (get_rye_cart_details env w cart_id) =
                 (Ok (VDict [("error",
                              VStr "RYE_AUTH_HEADER or RYE_SHOPPER_IP not set")]),
                  [])).
  { unfold run, get_rye_cart_details. cbn [forallb].
    simpl in Hin. destruct Hin as [<- | [<- | []]];
      rewrite Hmiss, ?andb_false_r; reflexivity. }
  unfold run, checkout_amazon_cart. rewrite Hu, Hk. cbn [negb orb].
  rewrite bind_run with (1 := Hget). unfold print at 1. rewrite bind_emit.
  do 2 eexists. split; [reflexivity | split; reflexivity].
Qed.

(** [get_rye_cart_details] always returns, so in [checkout_amazon_cart]
    an exception can only come from the statements that follow it. *)
Lemma checkout_escapes_from_total
    (rt : Runtime) (env : Env) (w : World) (cart_id : string)
    (buyer_info cart : value) (t0 : list event) (e : exc) :
  supabase_configured env ->
  run (get_rye_cart_details env w cart_id) = (Ok cart, t0) ->
  is_dict cart = true ->
  truthy (member "error" cart) = false ->
  checkout_total cart = Raise e ->
  fst (run (checkout_amazon_cart env w cart_id buyer_info)) = Raise e.
Proof.
  intros [Hu Hk] Hget Hdict Herr Htotal.
  unfold run, checkout_amazon_cart. rewrite Hu, Hk. cbn [negb orb].
  rewrite bind_run with (1 := Hget). unfold print at 1. rewrite bind_emit.
  rewrite Hdict. cbn [negb]. unfold get at 1. rewrite bind_lift.
  rewrite (py_get_member "error" _ Hdict), Herr.
  rewrite bind_lift, Htotal. reflexivity.
Qed.

(** C2. [checkout_amazon_cart] lets an exception escape when a cost
    [value] of the fetched cart is not numeric: with an object it raises
    [TypeError] under every runtime, and with the text ["N/A"] it raises
    [ValueError]. The conversion to [float] stands before the [try]
    statement of the handler. *)
Theorem checkout_raises_on_non_numeric_cost :
  (forall rt : Runtime,
      fst (run (checkout_amazon_cart full_env (checkout_world malformed_cost_cart)
                  "cart-1" sample_buyer)) = Raise TypeError)
  /\ fst (run (checkout_amazon_cart (rt := demo_runtime) full_env
                 (checkout_world textual_cost_cart) "cart-1" sample_buyer)) =
       Raise ValueError
  /\ network_calls
       (snd (run (checkout_amazon_cart (rt := demo_runtime) full_env
                    (checkout_world textual_cost_cart) "cart-1" sample_buyer))) =
       [HttpPost (get_cart_request full_env "cart-1")].
Proof.
  split; [intros rt; reflexivity | split; reflexivity].
Qed.

(** ** Spending status *)

(** *** Comparisons of binary64 values *)





(** *** The handler *)

Lemma py_sum_cases (fs : list float) :
  py_sum fs = VInt 0 \/ exists s, py_sum fs = VFloat s.
Proof. destruct fs; [left | right; eexists]; reflexivity. Qed.

Lemma py_ge_sum (fs : list float) (x : float) :
  py_ge (py_sum fs) x = Ok (at_least (py_sum fs) x).
Proof.
  unfold at_least. destruct (py_sum_cases fs) as [-> | [s ->]]; reflexivity.
Qed.


Lemma resolve_limit_of (rt : Runtime) (data : value) (limit : float) :
  limit_resolves data limit -> resolve_limit data = Ok limit.
Proof.
  intros [row rest l Hrow Hfloat | d Hd]; unfold resolve_limit.
  - simpl. rewrite py_get_field_or by exact Hrow. simpl. exact Hfloat.
  - rewrite Hd. reflexivity.
Qed.

Lemma order_amounts_loop (rt : Runtime) (orders : list value)
    (fs acc : list float) :
  Forall2 order_has_amount orders fs ->
  for_loop orders acc (fun acc o =>
    (v <- py_get o "total_amount_value" (VInt 0) ;;
     f <- py_float (py_or v (VInt 0)) ;;
     Ok (acc ++ [f])%list)%res) = Ok (acc ++ fs)%list.
Proof.
  intros H. revert acc. induction H as [| o f orders fs [Hd Hf] _ IH];
    intros acc; simpl.
  - rewrite app_nil_r. reflexivity.
  - rewrite py_get_field_or by exact Hd. simpl. rewrite Hf. simpl.
    rewrite IH, <- app_assoc. reflexivity.
Qed.

Lemma order_amounts_of (rt : Runtime) (orders : list value) (fs : list float) :
  Forall2 order_has_amount orders fs ->
  order_amounts (VList orders) = Ok fs.
Proof.
  intros H. unfold order_amounts. simpl.
  exact (@order_amounts_loop rt _ _ nil H).
Qed.

(** [get_spending_status] when both reads succeed. *)
Lemma spending_status_run (rt : Runtime) (env : Env) (w : World)
    (user_identifier : string) (limit_data orders_data : value)
    (limit remaining : float) (orders : list value) (amounts : list float) :
  supabase_configured env ->
  supabase_client w (environ_get env "SUPABASE_URL")
                  (environ_get env "SUPABASE_SERVICE_ROLE_KEY") = None ->
  db_execute w (environ_get env "SUPABASE_URL")
             (environ_get env "SUPABASE_SERVICE_ROLE_KEY")
             (limit_query user_identifier) = Ok (ok_response limit_data) ->
  limit_resolves limit_data limit ->
  db_execute w (environ_get env "SUPABASE_URL")
             (environ_get env "SUPABASE_SERVICE_ROLE_KEY")
             (orders_query w user_identifier) = Ok (ok_response orders_data) ->
  py_or orders_data (VList []) = VList orders ->
  Forall2 order_has_amount orders amounts ->
  py_rsub limit (py_sum amounts) = Ok remaining ->
  run (get_spending_status env w user_identifier) =
    (Ok (status_report limit (py_sum amounts) remaining (VList orders)
           (tier_advice (spec_tier (py_sum amounts) limit))),
     status_reads env w user_identifier).
Proof.
  intros [Hu Hk] Hclient Hlimit Hres Horders Htoday Hamounts Hrem.
  unfold run, get_spending_status. rewrite Hu, Hk. cbn [negb orb].
  rewrite try_bind. unfold create_client, of_ctor. rewrite Hclient. cbn [ret].
  rewrite try_bind. unfold execute at 1, bind at 1, emit, lift at 1. cbn [app].
  fold (limit_query user_identifier). rewrite Hlimit.
  cbn [resp_error resp_data ok_response].
  rewrite try_bind. unfold lift at 1. rewrite (@resolve_limit_of rt _ _ Hres).
  rewrite try_bind. unfold execute at 1, bind at 1, emit, lift at 1. cbn [app].
  fold (orders_query w user_identifier). rewrite Horders.
  cbn [resp_error resp_data ok_response]. rewrite Htoday.
  rewrite try_bind. unfold lift at 1. rewrite (@order_amounts_of rt _ _ Hamounts).
  rewrite try_bind. unfold lift at 1. rewrite Hrem.
  rewrite try_bind. unfold lift at 1. rewrite py_ge_sum.
  unfold spec_tier.
  destruct (at_least (py_sum amounts) limit).
  - reflexivity.
  - rewrite try_bind, bind_lift, py_ge_sum.
    destruct (at_least (py_sum amounts) (0.9 * limit)); reflexivity.
Qed.

(** *** Properties of spending status *)





(** ** Traces of the handlers *)

Lemma quiet_ret {A} (a : A) : quiet (ret a).
Proof. intros t. reflexivity. Qed.

Lemma quiet_lift {A} (r : Res A) : quiet (lift r).
Proof. intros t. reflexivity. Qed.

Lemma quiet_bind {A B} (m : M A) (k : A -> M B) :
  quiet m -> (forall a, quiet (k a)) -> quiet (bind m k).
Proof.
  intros Hm Hk t. unfold bind. specialize (Hm t).
  destruct (m t) as [[a | e] t']; simpl in Hm; subst t'.
  - apply Hk.
  - reflexivity.
Qed.

Lemma quiet_try {A} (m : M A) (h : exc -> M A) :
  quiet m -> (forall e, quiet (h e)) -> quiet (try_except m h).
Proof.
  intros Hm Hh t. unfold try_except. specialize (Hm t).
  destruct (m t) as [[a | e] t']; simpl in Hm; subst t'.
  - reflexivity.
  - apply Hh.
Qed.

Lemma quiet_error_message (e : db_error) : quiet (error_message e).
Proof. unfold error_message. destruct (err_message e); intros t; reflexivity. Qed.

(** Decompose a handler body into quiet pieces. *)
Ltac quiet_steps :=
  repeat first
    [ apply quiet_ret
    | apply quiet_lift
    | apply quiet_error_message
    | apply quiet_bind; [| intros ?]
    | match goal with
      | |- quiet (get _ _ _) => unfold get
      | |- quiet (item _ _) => unfold item
      | |- quiet (if ?b then _ else _) => destruct b
      | |- quiet (match ?x with _ => _ end) => destruct x
      end ].

(** One POST followed by quiet code leaves exactly that POST in the
    trace, whatever the endpoint answers. *)
Lemma try_post_trace {A} (w : World) (url : string) (json headers : value)
    (k : value -> M A) (h : exc -> M A) (t : list event) :
  (forall a, quiet (k a)) ->
  (forall e, quiet (h e)) ->
  snd (try_except (bind (post w url json headers) k) h t) =
    (t ++ [HttpPost {| req_url := url; req_json := json;
                       req_headers := headers |}])%list.
Proof.
  intros Hk Hh. unfold try_except, bind at 1, post, bind, emit, lift.
  destruct (http_post w _) as [a | e].
  - pose proof (Hk a (t ++ [HttpPost {| req_url := url; req_json := json;
                                        req_headers := headers |}])%list) as Q.
    destruct (k a _) as [[v | e] t']; simpl in Q; subst t'.
    + reflexivity.
    + apply Hh.
  - apply Hh.
Qed.

Lemma rye_configured_all (env : Env) :
  rye_configured env ->
  forallb truthy [environ_get env "RYE_AUTH_HEADER";
                  environ_get env "RYE_SHOPPER_IP"] = true.
Proof. intros [Ha Hi]. simpl. rewrite Ha, Hi. reflexivity. Qed.

(** X1. With the commerce credentials configured, each of the four
    operations that call the commerce endpoint issues exactly one POST, the
    request built from its arguments, and nothing else: whatever the
    endpoint answers (a body of any shape, an HTTP error, a network error),
    there is no second request and no retry. *)
Theorem rye_handlers_post_exactly_once :
  forall (rt : Runtime) (env : Env) (w : World) (c : tool_call)
         (r : http_request),
    rye_configured env ->
    rye_request env c = Some r ->
    snd (run (invoke env w c)) = [HttpPost r].
Proof.
  intros rt env w c r Hconf Hreq. apply rye_configured_all in Hconf.
  unfold run.
  destruct c; simpl in Hreq; inversion Hreq; subst r; clear Hreq; simpl;
    unfold request_amazon_product_tracking, fetch_amazon_product_details,
      create_amazon_cart, get_rye_cart_details;
    rewrite Hconf; cbn [negb];
    apply try_post_trace; intros; quiet_steps.
Qed.

Lemma rye_handlers_post_exactly_once_witness :
  snd (run (invoke (rt := demo_runtime) full_env
              (failing_http_world (RequestError "connection refused"))
              (CreateAmazonCart "B00X" 2))) =
    [HttpPost (create_cart_request full_env "B00X" 2)].
Proof.
  apply (@rye_handlers_post_exactly_once demo_runtime full_env
           (failing_http_world (RequestError "connection refused"))
           (CreateAmazonCart "B00X" 2)
           (create_cart_request full_env "B00X" 2)).
  - exact full_env_rye.
  - reflexivity.
Defined.

(** ** The commerce handlers: failures of the transport and of the provider *)

(** Run a commerce handler up to the answer of the endpoint. *)
Ltac enter_rye_handler Hconf Hreq Hpost :=
  apply rye_configured_all in Hconf;
  unfold run;
  match goal with
  | c : tool_call |- _ =>
      destruct c; simpl in Hreq; inversion Hreq; subst; clear Hreq; simpl;
      unfold request_amazon_product_tracking, fetch_amazon_product_details,
        create_amazon_cart, get_rye_cart_details;
      rewrite Hconf; cbn [negb];
      rewrite try_bind; unfold post at 1, bind at 1, emit, lift at 1;
      cbn [app];
      match goal with
      | |- context [http_post _ ?r] =>
          match type of Hpost with
          | http_post _ ?r' = _ => change r with r'
          end
      end;
      rewrite Hpost
  end.

(** X2. When the POST of a commerce operation fails, the operation returns
    a failure after that single request. For an HTTP status error the
    failure carries the response text as [details] and its message ends
    with the status code. *)
Theorem rye_handlers_report_transport_errors :
  forall (rt : Runtime) (env : Env) (w : World) (c : tool_call)
         (r : http_request) (e : exc),
    rye_configured env ->
    rye_request env c = Some r ->
    http_post w r = Raise e ->
    exists result,
      run (invoke env w c) = (Ok result, [HttpPost r])
      /\ is_failure result = true
      /\ (forall code text,
             e = HTTPStatusError code text ->
             field "details" result = Some (VStr text)
             /\ exists prefix,
                 field "error" result =
                   Some (VStr (prefix ++ py_str (VInt code)))).
Proof.
  intros rt env w c r e Hconf Hreq Hpost.
  enter_rye_handler Hconf Hreq Hpost;
    destruct e; eexists; (split; [reflexivity |]);
    (split; [reflexivity |]);
    intros c0 t0 Heq; inversion Heq; subst;
    (split; [reflexivity | eexists; reflexivity]).
Qed.

Lemma rye_handlers_report_transport_errors_witness :
  exists result,
    run (invoke (rt := demo_runtime) full_env
           (failing_http_world (HTTPStatusError 502 "Bad Gateway"))
           (GetRyeCartDetails "cart-1")) =
      (Ok result, [HttpPost (get_cart_request full_env "cart-1")])
    /\ is_failure result = true
    /\ (forall code text,
           HTTPStatusError 502 "Bad Gateway" = HTTPStatusError code text ->
           field "details" result = Some (VStr text)
           /\ exists prefix,
               field "error" result =
                 Some (VStr (prefix ++ @py_str demo_runtime (VInt code)))).
Proof.
  apply (@rye_handlers_report_transport_errors demo_runtime full_env
           (failing_http_world (HTTPStatusError 502 "Bad Gateway"))
           (GetRyeCartDetails "cart-1")
           (get_cart_request full_env "cart-1")
           (HTTPStatusError 502 "Bad Gateway")).
  - exact full_env_rye.
  - reflexivity.
  - reflexivity.
Defined.

(** X3. When the body of the answer carries a non-empty top-level
    [errors] member, each commerce operation returns a failure whose
    [details] are exactly that member, and looks no further into the
    body. *)
Theorem rye_handlers_pass_top_level_errors :
  forall (rt : Runtime) (env : Env) (w : World) (c : tool_call)
         (r : http_request) (resp : value),
    rye_configured env ->
    rye_request env c = Some r ->
    http_post w r = Ok resp ->
    truthy (member "errors" resp) = true ->
    exists msg,
      run (invoke env w c) =
        (Ok (VDict [("error", VStr msg); ("details", member "errors" resp)]),
         [HttpPost r]).
Proof.
  intros rt env w c r resp Hconf Hreq Hpost Herr.
  pose proof (truthy_member_field _ _ Herr) as Hfield.
  enter_rye_handler Hconf Hreq Hpost;
    unfold get, item;
    rewrite try_bind; unfold lift at 1;
    rewrite (py_get_member "errors" _ (member_truthy_is_dict _ _ Herr)), Herr;
    rewrite try_bind; unfold lift at 1;
    rewrite (py_item_field _ _ Hfield);
    eexists; reflexivity.
Qed.

Lemma rye_handlers_pass_top_level_errors_witness :
  exists msg,
    run (invoke (rt := demo_runtime) full_env
           (http_world (VDict [("errors", VList [sample_error])]))
           (FetchAmazonProductDetails "B00X")) =
      (Ok (VDict [("error", VStr msg);
                  ("details",
                   member "errors" (VDict [("errors", VList [sample_error])]))]),
       [HttpPost (details_request full_env "B00X")]).
Proof.
  apply (@rye_handlers_pass_top_level_errors demo_runtime full_env
           (http_world (VDict [("errors", VList [sample_error])]))
           (FetchAmazonProductDetails "B00X")
           (details_request full_env "B00X")
           (VDict [("errors", VList [sample_error])])).
  - exact full_env_rye.
  - reflexivity.
  - reflexivity.
  - reflexivity.
Defined.

(** X4. A body that is not a JSON object (a list, a string, a number,
    null) makes each commerce operation return a failure: the attribute
    error of the first lookup is caught at the end of the handler. *)
Theorem rye_handlers_reject_non_object_body :
  forall (rt : Runtime) (env : Env) (w : World) (c : tool_call)
         (r : http_request) (resp : value),
    rye_configured env ->
    rye_request env c = Some r ->
    http_post w r = Ok resp ->
    is_dict resp = false ->
    exists result,
      run (invoke env w c) = (Ok result, [HttpPost r])
      /\ is_failure result = true.
Proof.
  intros rt env w c r resp Hconf Hreq Hpost Hshape.
  assert (Hget : py_get resp "errors" VNone = Raise AttributeError)
    by (destruct resp; try reflexivity; discriminate).
  enter_rye_handler Hconf Hreq Hpost;
    unfold get; rewrite try_bind; unfold lift at 1; rewrite Hget;
    eexists; split; reflexivity.
Qed.

Lemma rye_handlers_reject_non_object_body_witness :
  exists result,
    run (invoke (rt := demo_runtime) full_env (http_world (VList []))
           (RequestAmazonProductTracking "https://www.amazon.com/dp/B00X")) =
      (Ok result,
       [HttpPost (tracking_request full_env "https://www.amazon.com/dp/B00X")])
    /\ is_failure result = true.
Proof.
  apply (@rye_handlers_reject_non_object_body demo_runtime full_env
           (http_world (VList []))
           (RequestAmazonProductTracking "https://www.amazon.com/dp/B00X")
           (tracking_request full_env "https://www.amazon.com/dp/B00X")
           (VList [])).
  - exact full_env_rye.
  - reflexivity.
  - reflexivity.
  - reflexivity.
Defined.

(** ** Product tracking and product details *)

(** X5. On an error-free answer, [request_amazon_product_tracking] reads
    [productId] at [data.requestAmazonProductByURL.productId], a missing
    [data] or payload counting as an empty object. A non-empty id is
    returned alone under ["productId"]; a missing, null or empty id gives
    the "productId not found" failure with the whole body as [details]. *)
Theorem tracking_returns_product_id :
  forall (rt : Runtime) (env : Env) (w : World) (product_url : string)
         (resp : value),
    rye_configured env ->
    http_post w (tracking_request env product_url) = Ok resp ->
    is_dict resp = true ->
    truthy (member "errors" resp) = false ->
    let data := field_or "data" resp (VDict []) in
    let payload := field_or "requestAmazonProductByURL" data (VDict []) in
    is_dict data = true ->
    is_dict payload = true ->
    run (request_amazon_product_tracking env w product_url) =
      (Ok (if truthy (member "productId" payload)
           then VDict [("productId", member "productId" payload)]
           else VDict [("error", VStr "productId not found in Rye response");
                       ("details", resp)]),
       [HttpPost (tracking_request env product_url)]).
Proof.
  intros rt env w product_url resp Hconf Hpost Hresp Herr data payload
         Hdata Hpayload.
  apply rye_configured_all in Hconf.
  unfold run, request_amazon_product_tracking. rewrite Hconf. cbn [negb].
  rewrite try_bind. unfold post at 1, bind at 1, emit, lift at 1. cbn [app].
  change (http_post w _) with (http_post w (tracking_request env product_url)).
  rewrite Hpost. unfold get.
  rewrite try_bind. unfold lift at 1. rewrite (py_get_member "errors" _ Hresp), Herr.
  rewrite try_bind. unfold lift at 1. rewrite py_get_field_or by exact Hresp.
  fold data.
  rewrite try_bind. unfold lift at 1.
  rewrite py_get_field_or by exact Hdata.
  fold payload.
  rewrite try_bind. unfold lift at 1. rewrite (py_get_member "productId" _ Hpayload).
  destruct (truthy (member "productId" payload)); reflexivity.
Qed.

Lemma tracking_returns_product_id_witness :
  run (request_amazon_product_tracking (rt := demo_runtime) full_env
         (http_world (tracking_response (VStr "B00X")))
         "https://www.amazon.com/dp/B00X") =
    (Ok (VDict [("productId", VStr "B00X")]),
     [HttpPost (tracking_request full_env "https://www.amazon.com/dp/B00X")]).
Proof.
  apply (@tracking_returns_product_id demo_runtime full_env
           (http_world (tracking_response (VStr "B00X")))
           "https://www.amazon.com/dp/B00X" (tracking_response (VStr "B00X")));
    try reflexivity.
  exact full_env_rye.
Defined.

Lemma assoc_dict_set_same (k : string) (v : value) (d : list (string * value)) :
  assoc k (dict_set k v d) = Some v.
Proof.
  induction d as [| [k' v'] d IH]; simpl.
  - rewrite String.eqb_refl. reflexivity.
  - destruct (String.eqb k k') eqn:E; simpl; rewrite E; [reflexivity | exact IH].
Qed.

Lemma assoc_dict_set_other (k k0 : string) (v : value)
    (d : list (string * value)) :
  k0 <> k -> assoc k0 (dict_set k v d) = assoc k0 d.
Proof.
  intros Hne. induction d as [| [k' v'] d IH]; simpl.
  - apply String.eqb_neq in Hne. rewrite Hne. reflexivity.
  - destruct (String.eqb k k') eqn:E; simpl.
    + apply String.eqb_eq in E. subst k'.
      apply String.eqb_neq in Hne. rewrite Hne. reflexivity.
    + rewrite IH. reflexivity.
Qed.

Lemma image_previews_loop (rt : Runtime) (images acc : list value) :
  Forall (fun u => image_init u = None) (preview_urls images) ->
  for_loop images acc (fun acc img =>
    (has_url <-
       (if is_dict img then
          u <- py_get img "url" VNone ;; Ok (truthy u)
        else Ok false) ;;
     if has_url then
       u <- py_item img "url" ;;
       im <- Image u ;;
       Ok (acc ++ [im])%list
     else Ok acc)%res) =
    Ok (acc ++ map VImage (preview_urls images))%list.
Proof.
  revert acc. induction images as [| img rest IH]; intros acc H; simpl.
  - rewrite app_nil_r. reflexivity.
  - simpl in H. destruct (is_dict img) eqn:Hd; simpl in H |- *.
    + rewrite (py_get_member "url" _ Hd). simpl.
      destruct (truthy (member "url" img)) eqn:Hu; simpl in H |- *.
      * rewrite (py_item_field _ _ (truthy_member_field _ _ Hu)). simpl.
        inversion H as [| ? ? Hinit Hrest]; subst.
        unfold Image. rewrite Hinit. simpl.
        rewrite (IH _ Hrest), <- app_assoc. reflexivity.
      * exact (IH _ H).
    + exact (IH _ H).
Qed.

(** X6. On an error-free answer with a product object,
    [fetch_amazon_product_details] returns that object with one more
    member, [image_previews]: an image for each entry of [images] that is
    an object with a non-empty [url], in order; entries without a url are
    skipped. Every other member of the product is returned unchanged. *)
Theorem product_details_add_image_previews :
  forall (rt : Runtime) (env : Env) (w : World) (product_id : string)
         (resp data : value) (product : list (string * value))
         (images : list value),
    rye_configured env ->
    http_post w (details_request env product_id) = Ok resp ->
    truthy (member "errors" resp) = false ->
    field "data" resp = Some data ->
    field "product" data = Some (VDict product) ->
    product <> [] ->
    field_or "images" (VDict product) (VList []) = VList images ->
    Forall (fun u => image_init u = None) (preview_urls images) ->
    let previews := VList (map VImage (preview_urls images)) in
    let result := dict_set "image_previews" previews product in
    run (fetch_amazon_product_details env w product_id) =
      (Ok (VDict result), [HttpPost (details_request env product_id)])
    /\ assoc "image_previews" result = Some previews
    /\ (forall k, k <> "image_previews" -> assoc k result = assoc k product).
Proof.
  intros rt env w product_id resp data product images Hconf Hpost Herr Hdata
         Hproduct Hne Himages Hinit previews result.
  split; [| split].
  - apply rye_configured_all in Hconf.
    unfold run, fetch_amazon_product_details. rewrite Hconf. cbn [negb].
    rewrite try_bind. unfold post at 1, bind at 1, emit, lift at 1. cbn [app].
    change (http_post w _) with (http_post w (details_request env product_id)).
    rewrite Hpost. unfold get.
    rewrite try_bind. unfold lift at 1.
    rewrite (py_get_member "errors" _ (field_is_dict _ _ Hdata)), Herr.
    rewrite try_bind. unfold lift at 1. rewrite (py_get_field _ _ _ Hdata).
    rewrite try_bind. unfold lift at 1. rewrite (py_get_field _ _ _ Hproduct).
    assert (Ht : truthy (VDict product) = true)
      by (destruct product; [contradiction | reflexivity]).
    rewrite Ht. cbn [negb].
    rewrite try_bind. unfold lift at 1.
    rewrite py_get_field_or by reflexivity.
    rewrite Himages.
    rewrite try_bind. unfold lift at 1. cbn [py_iter rbind].
    rewrite (@image_previews_loop rt images [] Hinit). reflexivity.
  - apply assoc_dict_set_same.
  - intros k Hk. apply assoc_dict_set_other. exact Hk.
Qed.

Lemma product_details_add_image_previews_witness :
  let images := [VDict [("url", VStr "https://img.example/1.jpg")];
                 VDict [("alt", VStr "no url")];
                 VDict [("url", VStr "https://img.example/2.jpg")]] in
  let previews := VList [VImage (VStr "https://img.example/1.jpg");
                         VImage (VStr "https://img.example/2.jpg")] in
  run (fetch_amazon_product_details (rt := demo_runtime) full_env
         (http_world (product_response (product_json images))) "B00X") =
    (Ok (VDict [("title", VStr "Kettle"); ("isAvailable", VBool true);
                ("images", VList images); ("image_previews", previews)]),
     [HttpPost (details_request full_env "B00X")]).
Proof.
  intros images previews.
  apply (@product_details_add_image_previews demo_runtime full_env
           (http_world (product_response (product_json images))) "B00X"
           (product_response (product_json images))
           (VDict [("product", product_json images)])
           [("title", VStr "Kettle"); ("isAvailable", VBool true);
            ("images", VList images)]
           images); try reflexivity.
  - exact full_env_rye.
  - discriminate.
  - repeat constructor.
Defined.

(** ** Cart retrieval *)

Ltac returns_failure H :=
  solve [ inversion H; subst; discriminate
        | match type of H with
          | context [match ?e with _ => _ end] =>
              destruct e; inversion H; subst; discriminate
          end ].

Lemma get_cart_success_inv (rt : Runtime) (env : Env) (w : World)
    (cart_id : string) (v : value) (t : list event) :
  run (get_rye_cart_details env w cart_id) = (Ok v, t) ->
  is_failure v = false ->
  exists resp,
    http_post w (get_cart_request env cart_id) = Ok resp
    /\ cart_fetched resp v.
Proof.
  unfold run, get_rye_cart_details. intros H Hv.
  destruct (negb _) eqn:Hconf in H; [returns_failure H |].
  rewrite try_bind in H. unfold post at 1, bind at 1, emit, lift at 1 in H.
  cbn [app] in H.
  match type of H with
  | context [http_post _ ?r] =>
      change r with (get_cart_request env cart_id) in H
  end.
  destruct (http_post w _) as [resp | e] eqn:Hpost; [| returns_failure H].
  unfold get, item in H.
  rewrite try_bind in H. unfold lift at 1 in H.
  destruct (py_get resp "errors" VNone) as [errs |] eqn:E1; [| returns_failure H].
  destruct (truthy errs) eqn:T1.
  { rewrite try_bind in H. unfold lift at 1 in H.
    destruct (py_item resp "errors"); returns_failure H. }
  rewrite try_bind in H. unfold lift at 1 in H.
  destruct (py_get resp "data" _) as [data |] eqn:E2; [| returns_failure H].
  rewrite try_bind in H. unfold lift at 1 in H.
  destruct (py_get data "getCart" VNone) as [envl |] eqn:E3;
    [| returns_failure H].
  destruct (truthy envl) eqn:T3; cbn [negb] in H; [| returns_failure H].
  rewrite try_bind in H. unfold lift at 1 in H.
  destruct (py_get envl "errors" VNone) as [perrs |] eqn:E4;
    [| returns_failure H].
  destruct (truthy perrs) eqn:T4.
  { rewrite try_bind in H. unfold lift at 1 in H.
    destruct (py_item envl "errors"); returns_failure H. }
  rewrite try_bind in H. unfold lift at 1 in H.
  destruct (py_get envl "cart" VNone) as [cart |] eqn:E5; [| returns_failure H].
  destruct (truthy cart) eqn:T5; cbn [negb] in H; [| returns_failure H].
  rewrite try_ret in H. inversion H; subst.
  exists resp. split; [reflexivity |].
  constructor.
  - rewrite (py_get_ok_member _ _ E1). exact T1.
  - pose proof (py_get_truthy_field _ _ E3 T3) as Hp.
    exists data, envl. split; [| split; [exact Hp | split]].
    + destruct (py_get_default_field _ _ _ E2) as [Hd | [_ ->]]; [exact Hd |].
      simpl in Hp. discriminate.
    + rewrite (py_get_ok_member _ _ E4). exact T4.
    + exact (py_get_truthy_field _ _ E5 T5).
  - exact T5.
Qed.

(** X7. [get_rye_cart_details] returns the nested cart exactly when the
    answer looks successful: on a body without top-level errors whose
    [getCart] envelope has no errors and a non-empty [cart], the result is
    that cart, unwrapped; and any result that is not a failure is the cart
    of such a body. *)
Theorem get_cart_returns_exactly_fetched_carts :
  forall (rt : Runtime) (env : Env) (w : World) (cart_id : string),
    (forall resp cart,
        rye_configured env ->
        http_post w (get_cart_request env cart_id) = Ok resp ->
        cart_fetched resp cart ->
        run (get_rye_cart_details env w cart_id) =
          (Ok cart, [HttpPost (get_cart_request env cart_id)]))
    /\ (forall v t,
          run (get_rye_cart_details env w cart_id) = (Ok v, t) ->
          is_failure v = false ->
          exists resp,
            http_post w (get_cart_request env cart_id) = Ok resp
            /\ cart_fetched resp v).
Proof.
  intros rt env w cart_id. split.
  - intros resp cart Hconf Hpost Hfetched.
    exact (@get_cart_returns rt env w cart_id resp cart Hconf Hpost Hfetched).
  - intros v t Hrun Hv.
    exact (@get_cart_success_inv rt env w cart_id v t Hrun Hv).
Qed.

Lemma get_cart_returns_exactly_fetched_carts_witness :
  run (get_rye_cart_details (rt := demo_runtime) full_env
         (checkout_world (priced_cart usd_cost)) "cart-1") =
    (Ok (priced_cart usd_cost), [HttpPost (get_cart_request full_env "cart-1")])
  /\ exists resp,
       http_post (checkout_world (priced_cart usd_cost))
                 (get_cart_request full_env "cart-1") = Ok resp
       /\ cart_fetched resp (priced_cart usd_cost).
Proof.
  split.
  - apply (proj1 (@get_cart_returns_exactly_fetched_carts demo_runtime full_env
                    (checkout_world (priced_cart usd_cost)) "cart-1")
             (get_cart_response (priced_cart usd_cost)) (priced_cart usd_cost)).
    + exact full_env_rye.
    + reflexivity.
    + apply cart_fetched_sample. reflexivity.
  - apply (proj2 (@get_cart_returns_exactly_fetched_carts demo_runtime full_env
                    (checkout_world (priced_cart usd_cost)) "cart-1")
             (priced_cart usd_cost)
             [HttpPost (get_cart_request full_env "cart-1")]).
    + reflexivity.
    + reflexivity.
Defined.

(** ** Product research: results and failures *)

(** X8. On a non-empty sequence of result records, [research_products]
    returns a success whose [results] has one entry per record, in the
    order received; each entry has exactly [title], [url] and [snippet],
    with ["N/A"] for a missing title or url and the empty string for a
    missing description. It issues a single search, for 10 results. *)
Theorem research_products_lists_every_record :
  forall (rt : Runtime) (env : Env) (w : World) (query key : string)
         (resp : search_response) (record : value) (records : list value),
    env "FIRECRAWL_API_KEY" = Some key ->
    key <> "" ->
    firecrawl_app w (VStr key) = None ->
    firecrawl_search w (VStr key) query 10 = Ok resp ->
    search_results resp = VList (record :: records) ->
    Forall (fun r => is_dict r = true) (record :: records) ->
    run (research_products env w query) =
      (Ok (VDict [("results", VList (map search_entry (record :: records)))]),
       [SearchCall (VStr key) query 10])
    /\ List.length (map search_entry (record :: records)) =
         List.length (record :: records).
Proof.
  intros rt env w query key resp record records Hkey Hne Happ Hsearch Hres Hrec.
  split; [| apply length_map].
  exact (@research_products_on_records rt env w query key resp
           (record :: records) Hkey Hne Happ Hsearch Hres Hrec).
Qed.

Lemma research_products_lists_every_record_witness :
  run (research_products (rt := demo_runtime) full_env
         (search_world [VDict [("title", VStr "Kettle");
                               ("url", VStr "https://shop.example/kettle")];
                        VDict [("description", VStr "A teapot")]])
         "kettle") =
    (Ok (VDict [("results",
                 VList [VDict [("title", VStr "Kettle");
                               ("url", VStr "https://shop.example/kettle");
                               ("snippet", VStr "")];
                        VDict [("title", VStr "N/A");
                               ("url", VStr "N/A");
                               ("snippet", VStr "A teapot")]])]),
     [SearchCall (VStr "fc-key") "kettle" 10]).
Proof.
  apply (@research_products_lists_every_record demo_runtime full_env
           (search_world [VDict [("title", VStr "Kettle");
                                 ("url", VStr "https://shop.example/kettle")];
                          VDict [("description", VStr "A teapot")]])
           "kettle" "fc-key"
           (WithData (VList [VDict [("title", VStr "Kettle");
                                    ("url", VStr "https://shop.example/kettle")];
                             VDict [("description", VStr "A teapot")]]))
           (VDict [("title", VStr "Kettle");
                   ("url", VStr "https://shop.example/kettle")])
           [VDict [("description", VStr "A teapot")]]);
    try reflexivity.
  - discriminate.
  - repeat constructor.
Defined.

Lemma search_loop_stops_at_non_record (pre post acc : list value) (bad : value) :
  Forall (fun r => is_dict r = true) pre ->
  is_dict bad = false ->
  for_loop (pre ++ bad :: post) acc (fun acc result =>
    (title <- py_get result "title" (VStr "N/A") ;;
     url <- py_get result "url" (VStr "N/A") ;;
     snippet <- py_get result "description" (VStr "") ;;
     Ok (acc ++ [VDict [("title", title); ("url", url);
                        ("snippet", snippet)]])%list)%res) =
    Raise AttributeError.
Proof.
  intros Hpre Hbad. revert acc.
  induction Hpre as [| r pre Hr _ IH]; intros acc; simpl.
  - destruct bad; try reflexivity. discriminate.
  - rewrite !py_get_field_or by exact Hr. simpl. apply IH.
Qed.

(** X9. Whatever goes wrong inside [research_products] comes back as a
    failure quoting the exception. If the client cannot be built, no search
    is issued; if the search raises, the single search is the whole trace;
    and if one element of the results is not a record, the entries built so
    far are dropped and the failure quotes the attribute error. *)
Theorem research_products_reports_exceptions :
  forall (rt : Runtime) (env : Env) (w : World) (query key : string),
    env "FIRECRAWL_API_KEY" = Some key ->
    key <> "" ->
    let failure e :=
      VDict [("error",
              VStr ("An error occurred during Firecrawl search: " ++ exc_str e))] in
    (forall e,
        firecrawl_app w (VStr key) = Some e ->
        run (research_products env w query) = (Ok (failure e), []))
    /\ (forall e,
          firecrawl_app w (VStr key) = None ->
          firecrawl_search w (VStr key) query 10 = Raise e ->
          run (research_products env w query) =
            (Ok (failure e), [SearchCall (VStr key) query 10]))
    /\ (forall resp pre bad post,
          firecrawl_app w (VStr key) = None ->
          firecrawl_search w (VStr key) query 10 = Ok resp ->
          search_results resp = VList (pre ++ bad :: post) ->
          Forall (fun r => is_dict r = true) pre ->
          is_dict bad = false ->
          run (research_products env w query) =
            (Ok (failure AttributeError), [SearchCall (VStr key) query 10])).
Proof.
  intros rt env w query key Hkey Hne failure.
  assert (Ht : truthy (VStr key) = true).
  { simpl. destruct key; [contradiction | reflexivity]. }
  split; [| split].
  - intros e Happ.
    unfold run, research_products, environ_get. rewrite Hkey, Ht. cbn [negb].
    rewrite try_bind. unfold FirecrawlApp, of_ctor. rewrite Happ. reflexivity.
  - intros e Happ Hsearch.
    unfold run, research_products, environ_get. rewrite Hkey, Ht. cbn [negb].
    rewrite try_bind. unfold FirecrawlApp, of_ctor. rewrite Happ. cbn [ret].
    rewrite try_bind. unfold search, bind at 1, emit, lift at 1. cbn [app].
    rewrite Hsearch. reflexivity.
  - intros resp pre bad post Happ Hsearch Hres Hpre Hbad.
    unfold run, research_products, environ_get. rewrite Hkey, Ht. cbn [negb].
    rewrite try_bind. unfold FirecrawlApp, of_ctor. rewrite Happ. cbn [ret].
    rewrite try_bind. unfold search, bind at 1, emit, lift at 1. cbn [app].
    rewrite Hsearch. fold (search_results resp). rewrite Hres.
    assert (Htr : truthy (VList (pre ++ bad :: post)) = true)
      by (destruct pre; reflexivity).
    rewrite Htr. rewrite try_bind. unfold lift at 1. cbn [py_iter rbind].
    rewrite (@search_loop_stops_at_non_record pre post [] bad Hpre Hbad). reflexivity.
Qed.

Lemma research_products_reports_exceptions_witness :
  run (research_products (rt := demo_runtime) full_env
         (search_world [VDict [("title", VStr "Kettle")]; VStr "junk"])
         "kettle") =
    (Ok (VDict [("error",
                 VStr ("An error occurred during Firecrawl search: "
                       ++ @exc_str demo_runtime AttributeError))]),
     [SearchCall (VStr "fc-key") "kettle" 10]).
Proof.
  assert (Hne : "fc-key" <> "") by discriminate.
  apply (proj2 (proj2 (@research_products_reports_exceptions demo_runtime
                         full_env
                         (search_world [VDict [("title", VStr "Kettle")];
                                        VStr "junk"])
                         "kettle" "fc-key" eq_refl Hne))
           (WithData (VList [VDict [("title", VStr "Kettle")]; VStr "junk"]))
           [VDict [("title", VStr "Kettle")]] (VStr "junk") []).
  - reflexivity.
  - reflexivity.
  - reflexivity.
  - repeat constructor.
  - reflexivity.
Defined.

(** ** The tool boundary, again *)

(** X10. Every operation other than [checkout_amazon_cart] returns a
    result for every environment, every argument and every behaviour of the
    outside services: no exception leaves these eight handlers. *)
Theorem handlers_other_than_checkout_never_raise :
  forall (rt : Runtime) (env : Env) (w : World) (c : tool_call),
    (forall cart_id buyer_info, c <> CheckoutAmazonCart cart_id buyer_info) ->
    exists v t, run (invoke env w c) = (Ok v, t).
Proof.
  intros rt env w c Hc.
  apply handlers_other_than_checkout_return.
  destruct c; try exact I. exact (Hc _ _ eq_refl).
Qed.

Lemma handlers_other_than_checkout_never_raise_witness :
  exists v t,
    run (invoke (rt := demo_runtime) full_env
           (db_world (Raise (OtherError "connection reset")))
           (GetSpendingStatus "ada")) = (Ok v, t).
Proof.
  apply (@handlers_other_than_checkout_never_raise demo_runtime full_env
           (db_world (Raise (OtherError "connection reset")))
           (GetSpendingStatus "ada")).
  intros cart_id buyer_info H. discriminate H.
Defined.

(** ** Purchase history and spending limits *)

Ltac enter_store_handler Hconf Hclient :=
  let Hu := fresh "Hu" in
  let Hk := fresh "Hk" in
  destruct Hconf as [Hu Hk];
  unfold run, list_my_purchases, set_spending_limit, get_spending_status;
  rewrite Hu, Hk; cbn [negb orb];
  rewrite try_bind; unfold create_client, of_ctor; rewrite Hclient; cbn [ret];
  rewrite try_bind; unfold execute at 1, bind at 1, emit, lift at 1; cbn [app].

(** X11. [list_my_purchases] issues one read: every column of [orders],
    newest [ordered_at] first, at most [limit] rows. It returns the rows as
    received, an absent or empty answer giving the empty list; an error
    object of the datastore gives a failure with its message (or its text
    when the message is empty), and an exception a failure quoting it. *)
Theorem list_my_purchases_reads_once :
  forall (rt : Runtime) (env : Env) (w : World) (limit : Z),
    supabase_configured env ->
    supabase_client w (environ_get env "SUPABASE_URL")
                    (environ_get env "SUPABASE_SERVICE_ROLE_KEY") = None ->
    let outcome :=
      db_execute w (environ_get env "SUPABASE_URL")
                 (environ_get env "SUPABASE_SERVICE_ROLE_KEY")
                 (purchases_query limit) in
    let trace := [db_event env (purchases_query limit)] in
    (forall resp,
        outcome = Ok resp -> resp_error resp = None ->
        run (list_my_purchases env w limit) =
          (Ok (VDict [("status", VStr "success");
                      ("orders", py_or (resp_data resp) (VList []))]), trace))
    /\ (forall resp err m,
          outcome = Ok resp -> resp_error resp = Some err ->
          err_message err = Some m ->
          run (list_my_purchases env w limit) =
            (Ok (VDict [("error", VStr "Supabase query failed");
                        ("details",
                         if truthy m then m else VStr (err_text err))]), trace))
    /\ (forall e,
          outcome = Raise e ->
          run (list_my_purchases env w limit) =
            (Ok (VDict [("error",
                         VStr ("Unexpected error fetching purchases: "
                               ++ exc_str e))]), trace)).
Proof.
  intros rt env w limit Hconf Hclient outcome trace.
  split; [| split].
  - intros resp Hout Herr. enter_store_handler Hconf Hclient.
    fold (purchases_query limit). fold outcome. rewrite Hout, Herr. reflexivity.
  - intros resp err m Hout Herr Hm. enter_store_handler Hconf Hclient.
    fold (purchases_query limit). fold outcome. rewrite Hout, Herr.
    unfold error_message. rewrite Hm. reflexivity.
  - intros e Hout. enter_store_handler Hconf Hclient.
    fold (purchases_query limit). fold outcome. rewrite Hout. reflexivity.
Qed.

Lemma list_my_purchases_reads_once_witness :
  run (list_my_purchases (rt := demo_runtime) full_env
         (db_world (Ok (ok_response VNone))) 3) =
    (Ok (VDict [("status", VStr "success"); ("orders", VList [])]),
     [db_event full_env (purchases_query 3)]).
Proof.
  apply (proj1 (@list_my_purchases_reads_once demo_runtime full_env
                  (db_world (Ok (ok_response VNone))) 3
                  full_env_supabase eq_refl)
           (ok_response VNone)).
  - reflexivity.
  - reflexivity.
Defined.

(** X12. [set_spending_limit] issues one call, whatever the datastore
    answers: an upsert into [spending_limits] of the row
    [{user_identifier, limit_value}] with [user_identifier] as conflict
    key. It returns the stored data on success and a failure with the
    datastore's message on an error object. *)
Theorem set_spending_limit_upserts_once :
  forall (rt : Runtime) (env : Env) (w : World) (user_identifier : string)
         (limit_value : float),
    supabase_configured env ->
    supabase_client w (environ_get env "SUPABASE_URL")
                    (environ_get env "SUPABASE_SERVICE_ROLE_KEY") = None ->
    let outcome :=
      db_execute w (environ_get env "SUPABASE_URL")
                 (environ_get env "SUPABASE_SERVICE_ROLE_KEY")
                 (limit_upsert user_identifier limit_value) in
    let trace := [db_event env (limit_upsert user_identifier limit_value)] in
    snd (run (set_spending_limit env w user_identifier limit_value)) = trace
    /\ (forall resp,
          outcome = Ok resp -> resp_error resp = None ->
          exists message,
            fst (run (set_spending_limit env w user_identifier limit_value)) =
              Ok (VDict [("status", VStr "success");
                         ("message", VStr message);
                         ("data", resp_data resp)]))
    /\ (forall resp err m,
          outcome = Ok resp -> resp_error resp = Some err ->
          err_message err = Some m ->
          fst (run (set_spending_limit env w user_identifier limit_value)) =
            Ok (VDict [("error", VStr "Failed to set spending limit");
                       ("details", m)])).
Proof.
  intros rt env w user_identifier limit_value Hconf Hclient outcome trace.
  split; [| split].
  - enter_store_handler Hconf Hclient.
    fold (limit_upsert user_identifier limit_value). fold outcome.
    destruct outcome as [resp | e]; [| reflexivity].
    destruct (resp_error resp) as [err |]; [| reflexivity].
    unfold try_except, bind, error_message.
    destruct (err_message err); reflexivity.
  - intros resp Hout Herr. enter_store_handler Hconf Hclient.
    fold (limit_upsert user_identifier limit_value). fold outcome.
    rewrite Hout, Herr. eexists. reflexivity.
  - intros resp err m Hout Herr Hm. enter_store_handler Hconf Hclient.
    fold (limit_upsert user_identifier limit_value). fold outcome.
    rewrite Hout, Herr. unfold error_message. rewrite Hm. reflexivity.
Qed.

Lemma set_spending_limit_upserts_once_witness :
  snd (run (set_spending_limit (rt := demo_runtime) full_env
              (db_world (Ok (error_response sample_db_error))) "ada" 75)) =
    [db_event full_env (limit_upsert "ada" 75)]
  /\ fst (run (set_spending_limit (rt := demo_runtime) full_env
                 (db_world (Ok (error_response sample_db_error))) "ada" 75)) =
       Ok (VDict [("error", VStr "Failed to set spending limit");
                  ("details", VStr "permission denied")]).
Proof.
  destruct (@set_spending_limit_upserts_once demo_runtime full_env
              (db_world (Ok (error_response sample_db_error))) "ada" 75%float
              full_env_supabase eq_refl) as (Htrace & _ & Herr).
  split; [exact Htrace |].
  apply (Herr (error_response sample_db_error) sample_db_error
              (VStr "permission denied")); reflexivity.
Defined.

(** ** Spending status: what it reads *)

Lemma spending_status_trace_prefix (rt : Runtime) (env : Env) (w : World)
    (user_identifier : string) :
  exists n,
    snd (run (get_spending_status env w user_identifier)) =
      firstn n (status_reads env w user_identifier).
Proof.
  unfold run, get_spending_status, status_reads, limit_query, orders_query.
  destruct (negb _ || negb _); [exists 0%nat; reflexivity |].
  rewrite try_bind. unfold create_client, of_ctor.
  destruct (supabase_client w _ _); [exists 0%nat; reflexivity |].
  cbn [ret].
  rewrite try_bind. unfold execute at 1, bind at 1, emit, lift at 1. cbn [app].
  destruct (db_execute w _ _ _) as [limit_resp | e];
    [| exists 1%nat; reflexivity].
  destruct (resp_error limit_resp) as [err |].
  { exists 1%nat. rewrite quiet_try; [reflexivity | quiet_steps ..]. }
  rewrite try_bind. unfold lift at 1.
  destruct (resolve_limit _) as [limit_value | e];
    [| exists 1%nat; reflexivity].
  rewrite try_bind. unfold execute at 1, bind at 1, emit, lift at 1. cbn [app].
  destruct (db_execute w _ _ _) as [orders_resp | e];
    [| exists 2%nat; reflexivity].
  exists 2%nat. rewrite quiet_try; [reflexivity | quiet_steps ..].
Qed.

(** X13. [get_spending_status] only reads. For every environment and every
    behaviour of the datastore its trace is a prefix of its two reads, the
    limit of the user and then the user's orders since the start of the UTC
    day: it never writes, never reads anything else, and never repeats a
    read. *)
Theorem spending_status_only_reads :
  forall (rt : Runtime) (env : Env) (w : World) (user_identifier : string),
    exists n,
      snd (run (get_spending_status env w user_identifier)) =
        firstn n (status_reads env w user_identifier)
      /\ forallb is_select
           (snd (run (get_spending_status env w user_identifier))) = true.
Proof.
  intros rt env w user_identifier.
  destruct (spending_status_trace_prefix rt env w user_identifier) as [n Hn].
  exists n. split; [exact Hn |]. rewrite Hn.
  destruct n as [| [| [| n]]]; reflexivity.
Qed.

(** X14. When the read of the limit comes back with an error object,
    [get_spending_status] returns the "Failed to fetch spending limit"
    failure with the datastore's message and does not read the orders; when
    the limit is read but the read of the orders comes back with an error
    object, it returns the "Failed to fetch today's orders" failure. *)
Theorem spending_status_stops_at_failed_read :
  forall (rt : Runtime) (env : Env) (w : World) (user_identifier : string)
         (err : db_error) (m : value),
    supabase_configured env ->
    supabase_client w (environ_get env "SUPABASE_URL")
                    (environ_get env "SUPABASE_SERVICE_ROLE_KEY") = None ->
    err_message err = Some m ->
    (forall resp,
        db_execute w (environ_get env "SUPABASE_URL")
                   (environ_get env "SUPABASE_SERVICE_ROLE_KEY")
                   (limit_query user_identifier) = Ok resp ->
        resp_error resp = Some err ->
        run (get_spending_status env w user_identifier) =
          (Ok (VDict [("error", VStr "Failed to fetch spending limit");
                      ("details", m)]),
           [db_event env (limit_query user_identifier)]))
    /\ (forall limit_data limit resp,
          db_execute w (environ_get env "SUPABASE_URL")
                     (environ_get env "SUPABASE_SERVICE_ROLE_KEY")
                     (limit_query user_identifier) =
            Ok (ok_response limit_data) ->
          limit_resolves limit_data limit ->
          db_execute w (environ_get env "SUPABASE_URL")
                     (environ_get env "SUPABASE_SERVICE_ROLE_KEY")
                     (orders_query w user_identifier) = Ok resp ->
          resp_error resp = Some err ->
          run (get_spending_status env w user_identifier) =
            (Ok (VDict [("error", VStr "Failed to fetch today's orders");
                        ("details", m)]),
             status_reads env w user_identifier)).
Proof.
  intros rt env w user_identifier err m Hconf Hclient Hm. split.
  - intros resp Hout Herr. enter_store_handler Hconf Hclient.
    fold (limit_query user_identifier). rewrite Hout, Herr.
    unfold error_message. rewrite Hm. reflexivity.
  - intros limit_data limit resp Hlimit Hres Hout Herr.
    enter_store_handler Hconf Hclient.
    fold (limit_query user_identifier). rewrite Hlimit.
    cbn [resp_error resp_data ok_response].
    rewrite try_bind. unfold lift at 1. rewrite (@resolve_limit_of rt _ _ Hres).
    rewrite try_bind. unfold execute at 1, bind at 1, emit, lift at 1. cbn [app].
    fold (orders_query w user_identifier). rewrite Hout, Herr.
    unfold error_message. rewrite Hm. reflexivity.
Qed.

Lemma spending_status_stops_at_failed_read_witness :
  run (get_spending_status (rt := demo_runtime) full_env
         (db_world (Ok (error_response sample_db_error))) "ada") =
    (Ok (VDict [("error", VStr "Failed to fetch spending limit");
                ("details", VStr "permission denied")]),
     [db_event full_env (limit_query "ada")]).
Proof.
  apply (proj1 (@spending_status_stops_at_failed_read demo_runtime full_env
                  (db_world (Ok (error_response sample_db_error))) "ada"
                  sample_db_error (VStr "permission denied")
                  full_env_supabase eq_refl eq_refl)
           (error_response sample_db_error)).
  - reflexivity.
  - reflexivity.
Defined.

(** X15. A [spending_limits] row without a [limit_value] member sets the
    limit to 0: with no order today the report says spent 0, remaining 0
    and the "limit reached" advisory, since [0 >= 0]. *)
Theorem spending_status_row_without_limit_value :
  forall (rt : Runtime) (env : Env) (w : World) (user_identifier : string)
         (row : value) (rest : list value) (orders_data : value),
    supabase_configured env ->
    supabase_client w (environ_get env "SUPABASE_URL")
                    (environ_get env "SUPABASE_SERVICE_ROLE_KEY") = None ->
    db_execute w (environ_get env "SUPABASE_URL")
               (environ_get env "SUPABASE_SERVICE_ROLE_KEY")
               (limit_query user_identifier) =
      Ok (ok_response (VList (row :: rest))) ->
    is_dict row = true ->
    field "limit_value" row = None ->
    db_execute w (environ_get env "SUPABASE_URL")
               (environ_get env "SUPABASE_SERVICE_ROLE_KEY")
               (orders_query w user_identifier) = Ok (ok_response orders_data) ->
    truthy orders_data = false ->
    run (get_spending_status env w user_identifier) =
      (Ok (status_report 0 (VInt 0) 0 (VList []) advice_limit_reached),
       status_reads env w user_identifier).
Proof.
  intros rt env w user_identifier row rest orders_data Hconf Hclient Hlimit
         Hrow Hnone Horders Hempty.
  assert (Hres : limit_resolves (VList (row :: rest)) 0%float).
  { apply limit_of_row; [exact Hrow |].
    unfold field_or. rewrite Hnone. reflexivity. }
  assert (Htoday : py_or orders_data (VList []) = VList [])
    by (unfold py_or; rewrite Hempty; reflexivity).
  exact (@spending_status_run rt env w user_identifier (VList (row :: rest))
           orders_data 0%float 0%float [] [] Hconf Hclient Hlimit Hres Horders
           Htoday (Forall2_nil _) eq_refl).
Qed.

Lemma spending_status_row_without_limit_value_witness :
  run (get_spending_status (rt := demo_runtime) full_env
         (spending_world [VDict [("user_identifier", VStr "ada")]] []) "ada") =
    (Ok (status_report 0 (VInt 0) 0 (VList []) advice_limit_reached),
     status_reads full_env
       (spending_world [VDict [("user_identifier", VStr "ada")]] []) "ada").
Proof.
  apply (@spending_status_row_without_limit_value demo_runtime full_env
           (spending_world [VDict [("user_identifier", VStr "ada")]] []) "ada"
           (VDict [("user_identifier", VStr "ada")]) [] (VList []));
    try reflexivity.
  exact full_env_supabase.
Defined.

(** ** Checkout: failures, snapshot and effects *)

(** X16. When the cart cannot be fetched, [checkout_amazon_cart] stops
    before any datastore call: a fetched value that is not an object gives
    the "Invalid cart details" failure, and a failure of the cart retrieval
    is returned whole as the [details] of the "Failed to fetch cart details
    before checkout" failure. The trace is that of the retrieval plus one
    printed line. *)
Theorem checkout_stops_when_cart_fetch_fails :
  forall (rt : Runtime) (env : Env) (w : World) (cart_id : string)
         (buyer_info fetched : value) (t0 : list event),
    supabase_configured env ->
    run (get_rye_cart_details env w cart_id) = (Ok fetched, t0) ->
    let trace :=
      (t0 ++ [Printed ("checkout_amazon_cart: cart_details = "
                       ++ py_str fetched)])%list in
    (is_dict fetched = false ->
     run (checkout_amazon_cart env w cart_id buyer_info) =
       (Ok (VDict [("error", VStr "Invalid cart details received");
                   ("details", VStr (py_str fetched))]), trace))
    /\ (truthy (member "error" fetched) = true ->
        run (checkout_amazon_cart env w cart_id buyer_info) =
          (Ok (VDict [("error",
                       VStr "Failed to fetch cart details before checkout");
                      ("details", fetched)]), trace))
    /\ filter is_db_call trace = filter is_db_call t0.
Proof.
  intros rt env w cart_id buyer_info fetched t0 [Hu Hk] Hget trace.
  split; [| split].
  - intros Hshape.
    unfold run, checkout_amazon_cart. rewrite Hu, Hk. cbn [negb orb].
    rewrite bind_run with (1 := Hget). unfold print at 1. rewrite bind_emit.
    rewrite Hshape. reflexivity.
  - intros Herr.
    pose proof (member_truthy_is_dict _ _ Herr) as Hd.
    unfold run, checkout_amazon_cart. rewrite Hu, Hk. cbn [negb orb].
    rewrite bind_run with (1 := Hget). unfold print at 1. rewrite bind_emit.
    rewrite Hd. cbn [negb]. unfold get at 1. rewrite bind_lift.
    rewrite (py_get_member "error" _ Hd), Herr. reflexivity.
  - unfold trace. rewrite filter_app. simpl. apply app_nil_r.
Qed.

Lemma checkout_stops_when_cart_fetch_fails_witness :
  run (checkout_amazon_cart (rt := demo_runtime) full_env
         (failing_http_world (HTTPStatusError 404 "no such cart"))
         "cart-9" sample_buyer) =
    (Ok (VDict [("error", VStr "Failed to fetch cart details before checkout");
                ("details",
                 VDict [("error",
                         VStr ("HTTP error fetching cart: "
                               ++ @py_str demo_runtime (VInt 404)));
                        ("details", VStr "no such cart")])]),
     [HttpPost (get_cart_request full_env "cart-9");
      Printed ("checkout_amazon_cart: cart_details = "
               ++ @py_str demo_runtime
                    (VDict [("error",
                             VStr ("HTTP error fetching cart: "
                                   ++ @py_str demo_runtime (VInt 404)));
                            ("details", VStr "no such cart")]))]).
Proof.
  apply (proj1 (proj2 (@checkout_stops_when_cart_fetch_fails demo_runtime
                         full_env
                         (failing_http_world (HTTPStatusError 404 "no such cart"))
                         "cart-9" sample_buyer
                         (VDict [("error",
                                  VStr ("HTTP error fetching cart: "
                                        ++ @py_str demo_runtime (VInt 404)));
                                 ("details", VStr "no such cart")])
                         [HttpPost (get_cart_request full_env "cart-9")]
                         full_env_supabase eq_refl))).
  reflexivity.
Defined.

(** X17. When the order row is built but the datastore refuses it,
    [checkout_amazon_cart] returns a failure that carries the attempted row:
    on an error object, "Supabase insert failed" with the message (or the
    text of the error when the message is empty) and the row under
    [order_data]; on an exception of the insert, or of the client
    constructor, "Checkout failed" quoting the exception. *)
Theorem checkout_reports_refused_insert :
  forall (rt : Runtime) (env : Env) (w : World) (cart_id : string)
         (buyer_info cart : value) (t0 : list event) (total : float)
         (currency : value) (items : list value),
    supabase_configured env ->
    run (get_rye_cart_details env w cart_id) = (Ok cart, t0) ->
    is_dict cart = true ->
    truthy (member "error" cart) = false ->
    checkout_total cart = Ok (total, currency) ->
    checkout_items cart = Ok items ->
    is_dict buyer_info = true ->
    let row :=
      order_record cart_id (member "email" buyer_info) total currency items in
    let outcome :=
      db_execute w (environ_get env "SUPABASE_URL")
                 (environ_get env "SUPABASE_SERVICE_ROLE_KEY")
                 (Insert "orders" row) in
    let client :=
      supabase_client w (environ_get env "SUPABASE_URL")
                      (environ_get env "SUPABASE_SERVICE_ROLE_KEY") in
    (forall resp err m,
        client = None ->
        outcome = Ok resp -> resp_error resp = Some err ->
        err_message err = Some m ->
        fst (run (checkout_amazon_cart env w cart_id buyer_info)) =
          Ok (VDict [("error", VStr "Supabase insert failed");
                     ("details", py_or m (VStr (err_text err)));
                     ("order_data", row)]))
    /\ (forall e,
          client = None ->
          outcome = Raise e ->
          fst (run (checkout_amazon_cart env w cart_id buyer_info)) =
            Ok (VDict [("error", VStr ("Checkout failed: " ++ exc_str e))]))
    /\ (forall e,
          client = Some e ->
          fst (run (checkout_amazon_cart env w cart_id buyer_info)) =
            Ok (VDict [("error", VStr ("Checkout failed: " ++ exc_str e))])
          /\ filter is_db_call
               (snd (run (checkout_amazon_cart env w cart_id buyer_info))) =
             filter is_db_call t0).
Proof.
  intros rt env w cart_id buyer_info cart t0 total currency items
         Hconf Hget Hdict Herr Htotal Hitems Hbuyer row outcome client.
  split; [| split].
  - intros resp err m Hclient Hout Hre Hm.
    rewrite (checkout_reaches_insert w cart_id buyer_info Hconf Hget Hdict Herr
               Htotal Hitems Hclient Hbuyer).
    unfold try_except, bind, lift. fold row. fold outcome.
    rewrite Hout, Hre. unfold error_message. rewrite Hm. reflexivity.
  - intros e Hclient Hout.
    rewrite (checkout_reaches_insert w cart_id buyer_info Hconf Hget Hdict Herr
               Htotal Hitems Hclient Hbuyer).
    unfold try_except, bind, lift. fold row. fold outcome.
    rewrite Hout. reflexivity.
  - intros e Hclient. destruct Hconf as [Hu Hk].
    assert (Hrun :
      run (checkout_amazon_cart env w cart_id buyer_info) =
        (Ok (VDict [("error", VStr ("Checkout failed: " ++ exc_str e))]),
         (t0 ++ [Printed ("checkout_amazon_cart: cart_details = "
                          ++ py_str cart)])%list)).
    { unfold run, checkout_amazon_cart. rewrite Hu, Hk. cbn [negb orb].
      rewrite bind_run with (1 := Hget). unfold print at 1. rewrite bind_emit.
      rewrite Hdict. cbn [negb]. unfold get at 1. rewrite bind_lift.
      rewrite (py_get_member "error" _ Hdict), Herr.
      rewrite bind_lift, Htotal, bind_lift, Hitems.
      rewrite try_bind. unfold create_client, of_ctor. fold client.
      rewrite Hclient. reflexivity. }
    rewrite Hrun. cbn [fst snd]. split; [reflexivity |].
    rewrite filter_app. simpl. apply app_nil_r.
Qed.

Lemma checkout_reports_refused_insert_witness :
  fst (run (checkout_amazon_cart (rt := demo_runtime) full_env
              (make_world (Ok (Plain (VList [])))
                          (Ok (get_cart_response (priced_cart usd_cost)))
                          (fun _ => Ok (error_response sample_db_error)))
              "cart-1" sample_buyer)) =
    Ok (VDict [("error", VStr "Supabase insert failed");
               ("details", VStr "permission denied");
               ("order_data",
                order_record "cart-1" (VStr "ada@example.org") 15%float
                             (VStr "USD") [])]).
Proof.
  apply (proj1 (@checkout_reports_refused_insert demo_runtime full_env
                  (make_world (Ok (Plain (VList [])))
                              (Ok (get_cart_response (priced_cart usd_cost)))
                              (fun _ => Ok (error_response sample_db_error)))
                  "cart-1" sample_buyer (priced_cart usd_cost)
                  [HttpPost (get_cart_request full_env "cart-1")]
                  15%float (VStr "USD") []
                  full_env_supabase eq_refl eq_refl eq_refl eq_refl eq_refl
                  eq_refl)
           (error_response sample_db_error) sample_db_error
           (VStr "permission denied")); reflexivity.
Defined.

Lemma rbind_ok {A B} (a : A) (k : A -> Res B) : rbind (Ok a) k = k a.
Proof. reflexivity. Qed.

Lemma for_loop_cons {S} (x : value) (l : list value) (acc : S)
    (body : S -> value -> Res S) :
  for_loop (x :: l) acc body =
    rbind (body acc x) (fun acc' => for_loop l acc' body).
Proof. reflexivity. Qed.

Lemma snapshot_lines_loop (lines acc : list value) :
  Forall line_readable lines ->
  for_loop lines acc (fun acc line =>
    (p <- py_get line "product" VNone ;;
     let prod := py_or p (VDict []) in
     pr <- py_get prod "price" VNone ;;
     let price := py_or pr (VDict []) in
     product_id <- py_get prod "id" VNone ;;
     title <- py_get prod "title" VNone ;;
     quantity <- py_get line "quantity" VNone ;;
     price_value <- py_get price "value" VNone ;;
     price_currency <- py_get price "currency" VNone ;;
     Ok (acc ++ [VDict [("productId", product_id);
                        ("title", title);
                        ("quantity", quantity);
                        ("price_value", price_value);
                        ("price_currency", price_currency)]])%list)%res) =
    Ok (acc ++ map line_snapshot lines)%list.
Proof.
  intros H. revert acc.
  induction H as [| line lines (Hl & Hp & Hpr) _ IH]; intros acc; simpl.
  - rewrite app_nil_r. reflexivity.
  - rewrite (py_get_member "product" _ Hl). cbn [rbind]. cbv zeta.
    rewrite (py_get_member "price" _ Hp). cbn [rbind]. cbv zeta.
    rewrite (py_get_member "id" _ Hp), (py_get_member "title" _ Hp),
      (py_get_member "quantity" _ Hl), (py_get_member "value" _ Hpr),
      (py_get_member "currency" _ Hpr).
    cbn [rbind]. rewrite IH, <- app_assoc. reflexivity.
Qed.

Lemma snapshot_stores_loop (stores : list value) (lineses : list (list value))
    (acc : list value) :
  Forall2 store_has_lines stores lineses ->
  for_loop stores acc (fun acc store =>
    (cl <- py_get store "cartLines" VNone ;;
     lines <- py_iter (py_or cl (VList [])) ;;
     for_loop lines acc (fun acc line =>
       p <- py_get line "product" VNone ;;
       let prod := py_or p (VDict []) in
       pr <- py_get prod "price" VNone ;;
       let price := py_or pr (VDict []) in
       product_id <- py_get prod "id" VNone ;;
       title <- py_get prod "title" VNone ;;
       quantity <- py_get line "quantity" VNone ;;
       price_value <- py_get price "value" VNone ;;
       price_currency <- py_get price "currency" VNone ;;
       Ok (acc ++ [VDict [("productId", product_id);
                          ("title", title);
                          ("quantity", quantity);
                          ("price_value", price_value);
                          ("price_currency", price_currency)]])%list))%res) =
    Ok (acc ++ map line_snapshot (concat lineses))%list.
Proof.
  intros H. revert acc.
  induction H as [| store lines stores lineses (Hs & Hl & Hr) _ IH];
    intros acc.
  - simpl. rewrite app_nil_r. reflexivity.
  - rewrite for_loop_cons. cbv beta.
    rewrite (py_get_member "cartLines" _ Hs), rbind_ok, Hl.
    change (py_iter (VList lines)) with (Ok lines). rewrite rbind_ok.
    rewrite (snapshot_lines_loop acc Hr), rbind_ok.
    rewrite IH. simpl. rewrite map_app, app_assoc. reflexivity.
Qed.

(** X18. The items snapshot of [checkout_amazon_cart] flattens the cart:
    it has one entry per cart line, the lines of the first store first, each
    store's lines in their order. An entry holds the product id and title,
    the quantity and the price value and currency of its line, null where
    the line lacks them; a cart without stores gives the empty snapshot. *)
Theorem checkout_items_flatten_cart_lines :
  forall (cart : value) (stores : list value) (lineses : list (list value)),
    is_dict cart = true ->
    py_or (member "stores" cart) (VList []) = VList stores ->
    Forall2 store_has_lines stores lineses ->
    checkout_items cart = Ok (map line_snapshot (concat lineses))
    /\ List.length (map line_snapshot (concat lineses)) =
         list_sum (map (@List.length value) lineses).
Proof.
  intros cart stores lineses Hcart Hstores Hlines. split.
  - unfold checkout_items. rewrite (py_get_member "stores" _ Hcart).
    cbn [rbind]. rewrite Hstores. cbn [py_iter rbind].
    exact (snapshot_stores_loop [] Hlines).
  - rewrite length_map. induction lineses as [| l ls IH] in stores, Hlines |- *.
    + reflexivity.
    + simpl. rewrite length_app. inversion Hlines; subst.
      erewrite IH by eassumption. reflexivity.
Qed.

Lemma checkout_items_flatten_cart_lines_witness :
  checkout_items three_store_cart =
    Ok [VDict [("productId", VStr "B00X"); ("title", VStr "Kettle");
               ("quantity", VInt 2); ("price_value", VInt 1999);
               ("price_currency", VStr "USD")];
        VDict [("productId", VNone); ("title", VNone);
               ("quantity", VInt 1); ("price_value", VNone);
               ("price_currency", VNone)]].
Proof.
  apply (proj1 (@checkout_items_flatten_cart_lines three_store_cart
                  three_stores [[kettle_line]; []; [bare_line]]
                  eq_refl eq_refl
                  ltac:(repeat first [ constructor | split | reflexivity ]))).
Defined.

(** X19. A checkout that reaches the datastore makes exactly two network
    calls, in this order: the POST that reads the cart, then the insert of
    the order row. It sends nothing else to the commerce endpoint, and this
    holds whatever the datastore answers to the insert. *)
Theorem checkout_reads_cart_then_inserts :
  forall (rt : Runtime) (env : Env) (w : World) (cart_id : string)
         (buyer_info resp cart : value) (total : float) (currency : value)
         (items : list value),
    rye_configured env ->
    supabase_configured env ->
    http_post w (get_cart_request env cart_id) = Ok resp ->
    cart_fetched resp cart ->
    is_dict cart = true ->
    truthy (member "error" cart) = false ->
    checkout_total cart = Ok (total, currency) ->
    checkout_items cart = Ok items ->
    supabase_client w (environ_get env "SUPABASE_URL")
                    (environ_get env "SUPABASE_SERVICE_ROLE_KEY") = None ->
    is_dict buyer_info = true ->
    network_calls
      (snd (run (checkout_amazon_cart env w cart_id buyer_info))) =
      [HttpPost (get_cart_request env cart_id);
       order_insert env
         (order_record cart_id (member "email" buyer_info) total currency
                       items)].
Proof.
  intros rt env w cart_id buyer_info resp cart total currency items
         Hrye Hconf Hpost Hfetched Hdict Herr Htotal Hitems Hclient Hbuyer.
  pose proof (@get_cart_returns rt env w cart_id resp cart Hrye Hpost Hfetched)
    as Hget.
  rewrite (checkout_trace w cart_id buyer_info Hconf Hget Hdict Herr Htotal
             Hitems Hclient Hbuyer).
  reflexivity.
Qed.

Lemma checkout_reads_cart_then_inserts_witness :
  network_calls
    (snd (run (checkout_amazon_cart (rt := demo_runtime) full_env
                 (checkout_world (priced_cart usd_cost)) "cart-1"
                 sample_buyer))) =
    [HttpPost (get_cart_request full_env "cart-1");
     order_insert full_env
       (order_record "cart-1" (member "email" sample_buyer) 15%float
                     (VStr "USD") [])].
Proof.
  apply (@checkout_reads_cart_then_inserts demo_runtime full_env
           (checkout_world (priced_cart usd_cost)) "cart-1" sample_buyer
           (get_cart_response (priced_cart usd_cost)) (priced_cart usd_cost)
           15%float (VStr "USD") []); try reflexivity.
  - exact full_env_rye.
  - exact full_env_supabase.
  - apply cart_fetched_sample. reflexivity.
Defined.

Lemma get_cart_trace_no_db (rt : Runtime) (env : Env) (w : World)
    (cart_id : string) :
  filter is_db_call (snd (run (get_rye_cart_details env w cart_id))) = [].
Proof.
  unfold run, get_rye_cart_details.
  destruct (negb _); [reflexivity |].
  rewrite try_post_trace; [reflexivity | intros; quiet_steps ..].
Qed.

(** X20. When an exception does leave [checkout_amazon_cart], no datastore
    call has been made: the exception comes from the statements between the
    cart retrieval and the [try] block, so no order row is written for that
    call. *)
Theorem checkout_exception_precedes_insert :
  forall (rt : Runtime) (env : Env) (w : World) (cart_id : string)
         (buyer_info : value) (e : exc) (t : list event),
    run (checkout_amazon_cart env w cart_id buyer_info) = (Raise e, t) ->
    filter is_db_call t = [].
Proof.
  intros rt env w cart_id buyer_info e t H.
  pose proof (get_cart_trace_no_db rt env w cart_id) as Hno.
  unfold run in *. unfold checkout_amazon_cart in H.
  destruct (negb _ || negb _); [discriminate H |].
  unfold bind at 1 in H.
  destruct (get_rye_cart_details env w cart_id []) as [[v | e0] t0];
    simpl in Hno.
  - unfold print at 1 in H. rewrite bind_emit in H.
    destruct (is_dict v); cbn [negb] in H; [| discriminate H].
    unfold get at 1 in H. rewrite bind_lift in H.
    destruct (py_get v "error" VNone) as [err | e1].
    + destruct (truthy err); [discriminate H |].
      rewrite bind_lift in H.
      destruct (checkout_total v) as [total | e1].
      * rewrite bind_lift in H.
        destruct (checkout_items v) as [items | e1].
        -- match type of H with
           | try_except ?m ?h ?t1 = _ =>
               destruct (@try_except_returns _ m h
                           (fun e' t' => ex_intro _ _
                              (ex_intro _ t' eq_refl)) t1)
                 as (a & t' & Heq);
               rewrite Heq in H; discriminate H
           end.
        -- inversion H; subst. rewrite filter_app, Hno. reflexivity.
      * inversion H; subst. rewrite filter_app, Hno. reflexivity.
    + inversion H; subst. rewrite filter_app, Hno. reflexivity.
  - inversion H; subst. exact Hno.
Qed.

Lemma checkout_exception_precedes_insert_witness :
  filter is_db_call
    [HttpPost (get_cart_request full_env "cart-1");
     Printed ("checkout_amazon_cart: cart_details = "
              ++ @py_str demo_runtime textual_cost_cart)] = [].
Proof.
  apply (@checkout_exception_precedes_insert demo_runtime full_env
           (checkout_world textual_cost_cart) "cart-1" sample_buyer
           ValueError).
  reflexivity.
Defined.
